(** * RentFlow front end: the API client and the login form

    A shallow embedding of the API client module (the [ApiService] class,
    [setForceLogout] and the module-level [forceLogoutFn] slot) and of
    [handleSubmit] in the [Login] component of [frontend/src/pages/Login.tsx].

    JavaScript values are an inductive type, the browser state the client
    touches ([localStorage], the force-logout slot) is threaded explicitly
    through a state-and-exception monad, and what the browser and the backend
    contribute (responses, random draws, clock readings, number printing) is
    taken as a parameter. *)

From Stdlib Require Import ZArith QArith Qround Ascii String List Bool Lia.
From stdpp Require Import gmap strings pretty.
Import ListNotations.

Close Scope Q_scope.
#[local] Set Warnings "-register-all".

(** ** Strings *)

(** The double-quote character, code 34. *)
Definition dq : string := String (ascii_of_nat 34) EmptyString.

Definition hex_digit (n : nat) : ascii :=
  ascii_of_nat (if n <? 10 then 48 + n else 87 + n).

(** [String.prototype.includes] restricted to byte strings: [true] iff
    [needle] occurs in [s] as a contiguous block. *)
Fixpoint includes (s needle : string) : bool :=
  String.prefix needle s ||
  match s with
  | EmptyString => false
  | String _ rest => includes rest needle
  end.

(** [s.substr(start, len)] for non-negative [start] and [len]. *)
Definition substr (start len : nat) (s : string) : string :=
  String.substring start (Nat.min len (String.length s - start)) s.

(** [xs.join(sep)] on strings already rendered. *)
Fixpoint join (sep : string) (xs : list string) : string :=
  match xs with
  | [] => ""
  | [x] => x
  | x :: rest => x +:+ sep +:+ join sep rest
  end.

(** Decimal digits, to describe what a timestamp prints as. *)
Definition is_digit (c : ascii) : bool :=
  (48 <=? nat_of_ascii c)%nat && (nat_of_ascii c <=? 57)%nat.

Fixpoint all_digits (s : string) : bool :=
  match s with
  | EmptyString => true
  | String c rest => is_digit c && all_digits rest
  end.

(** The [QuoteJSONString] operation of [JSON.stringify]: quote, backslash and
    the control characters below 0x20 are escaped, the rest is copied. *)
Definition json_escape_char (c : ascii) : string :=
  let n := nat_of_ascii c in
  if n =? 34 then "\" +:+ dq
  else if n =? 92 then "\\"
  else if n =? 8 then "\b"
  else if n =? 9 then "\t"
  else if n =? 10 then "\n"
  else if n =? 12 then "\f"
  else if n =? 13 then "\r"
  else if n <? 32 then
    "\u00" +:+ String (hex_digit (n / 16)) (String (hex_digit (n mod 16)) "")
  else String c "".

Fixpoint json_escape (s : string) : string :=
  match s with
  | EmptyString => ""
  | String c rest => json_escape_char c +:+ json_escape rest
  end.

Definition json_quote (s : string) : string := dq +:+ json_escape s +:+ dq.

(** ** The platform

    Operations of the JavaScript runtime whose result this client only passes
    along. [Number] is the type of IEEE doubles; the code observes a number's
    truthiness and its renderings, never its bits. *)
Class Platform := {
  Number : Type;
  (** an integer literal or integer-valued result, as a double *)
  num_of_Z : Z -> Number;
  (** [false] exactly for [0], [-0] and [NaN] *)
  num_truthy : Number -> bool;
  (** [Number.prototype.toString()] *)
  num_to_string : Number -> string;
  (** [JSON.stringify] of a number: its [toString], or [null] when not finite *)
  num_to_json : Number -> string;
  (** [encodeURIComponent] *)
  encodeURIComponent : string -> string;
  (** the [application/x-www-form-urlencoded] byte serializer behind
      [URLSearchParams.prototype.toString] *)
  form_urlencode : string -> string;
  (** [new Date(s).getTime()], [None] for an invalid date ([NaN]) *)
  Date_getTime : string -> option Z;
  (** [new Date(t).toISOString().split('T')[0]] for a time value in range *)
  iso_date : Z -> string;
  (** [x.toString(36)] for a double [0 <= x < 1], given as its exact value *)
  toString36 : Q -> string;
  (** [Math.floor(x * n)] in double arithmetic, for [0 <= x < 1] *)
  floor_times : Q -> Z -> Z;
  (** [Math.ceil((e - s) / 86400000)] in double arithmetic on two time
      values [s] and [e] more than [2^53] apart, where the subtraction
      rounds *)
  ceil_days_rounded : Z -> Z -> Z;
}.

Section Client.
Context {P : Platform}.

(** ** JavaScript values: [undefined] and what [JSON.parse] can build. An
    object is the list of its own enumerable properties in enumeration
    order. *)
Inductive Value : Type :=
| VUndefined
| VNull
| VBool (b : bool)
| VNum (n : Number)
| VStr (s : string)
| VArr (elems : list Value)
| VObj (props : list (string * Value)).

(** [ToBoolean]. *)
Definition truthy (v : Value) : bool :=
  match v with
  | VUndefined | VNull => false
  | VBool b => b
  | VNum n => num_truthy n
  | VStr s => negb (String.eqb s "")
  | VArr _ | VObj _ => true
  end.

(** [a || b]. *)
Definition js_or (a b : Value) : Value := if truthy a then a else b.

Fixpoint own_property (props : list (string * Value)) (key : string) : option Value :=
  match props with
  | [] => None
  | (k, v) :: rest => if String.eqb k key then Some v else own_property rest key
  end.

(** [v?.key] for a key that no built-in prototype defines (here [message] and
    [error]): [undefined] on [undefined], [null] and on every primitive and
    array, the own property of an object when it has one. *)
Definition opt_get (v : Value) (key : string) : Value :=
  match v with
  | VObj props => default VUndefined (own_property props key)
  | _ => VUndefined
  end.

(** [ToString]. [None] is the [TypeError] that [OrdinaryToPrimitive] throws for
    an object whose own [toString] property shadows [Object.prototype.toString]
    with a value that cannot be called; an object without one prints as
    [[object Object]], and an array joins its elements with commas, [null] and
    [undefined] elements printing as the empty string. *)
Fixpoint ToString (v : Value) : option string :=
  match v with
  | VUndefined => Some "undefined"
  | VNull => Some "null"
  | VBool b => Some (if b then "true" else "false")
  | VNum n => Some (num_to_string n)
  | VStr s => Some s
  | VArr elems =>
      join "," <$>
      (fix each (xs : list Value) : option (list string) :=
         match xs with
         | [] => Some []
         | x :: rest =>
             match (match x with
                    | VUndefined | VNull => Some ""
                    | _ => ToString x
                    end) with
             | Some s => cons s <$> each rest
             | None => None
             end
         end) elems
  | VObj props =>
      match own_property props "toString" with
      | Some _ => None
      | None => Some "[object Object]"
      end
  end.

(** [JSON.stringify(v)]; [None] is the [undefined] it returns for
    [undefined]. Inside an array [undefined] prints as [null]; inside an
    object a property holding [undefined] is skipped. *)
Fixpoint JSON_stringify (v : Value) : option string :=
  match v with
  | VUndefined => None
  | VNull => Some "null"
  | VBool b => Some (if b then "true" else "false")
  | VNum n => Some (num_to_json n)
  | VStr s => Some (json_quote s)
  | VArr elems =>
      Some ("[" +:+
            join ","
              ((fix each (xs : list Value) : list string :=
                  match xs with
                  | [] => []
                  | x :: rest => default "null" (JSON_stringify x) :: each rest
                  end) elems) +:+ "]")
  | VObj props =>
      Some ("{" +:+
            join ","
              ((fix each (ps : list (string * Value)) : list string :=
                  match ps with
                  | [] => []
                  | (k, x) :: rest =>
                      match JSON_stringify x with
                      | Some s => (json_quote k +:+ ":" +:+ s) :: each rest
                      | None => each rest
                      end
                  end) props) +:+ "}")
  end.

(** ** Requests, responses and errors *)

(** A thrown value: [new Error(message)], or what the runtime raises: a
    [TypeError] from [fetch] on a network failure and from [ToString] on an
    unprintable object, a [SyntaxError] from [response.json()]. *)
Inductive Exn : Type :=
| Error (message : string)
| TypeError (message : string)
| SyntaxError (message : string).

(** The part of a fetch [Response] the client reads: [status], and what
    [response.json()] settles with ([None] when the body does not parse and
    the promise rejects). [ok] is the Fetch API's derived flag. *)
Record Response : Type := {
  status : nat;
  json : option Value;
}.

Definition ok (r : Response) : bool :=
  (200 <=? status r)%nat && (status r <=? 299)%nat.

(** The arguments of one [fetch(url, { method, headers, body })] call; a
    missing [method] means [GET]. *)
Record Request : Type := {
  url : string;
  method : option string;
  headers : list (string * string);
  body : option string;
}.

Definition request_method (r : Request) : string := default "GET" (method r).

(** ** The world

    [forceLogoutFn] holds a handle: [Noop] is the initial [() => {}], a
    [Handler] is a function some caller registered. Its body is taken from
    the environment: run on what this module owns, the storage and the slot,
    it leaves them in some state and either returns or throws. *)
Inductive Callback : Type :=
| Noop
| Handler (id : nat).

Record Env : Type := {
  (** [import.meta.env.VITE_API_URL] *)
  VITE_API_URL : option string;
  (** what [fetch] settles with, given every request issued so far, the
      newest last *)
  network : list Request -> Response + Exn;
  (** the successive results of [Math.random()], as exact rationals *)
  random_tape : nat -> Q;
  (** the successive results of [Date.now()] *)
  clock_tape : nat -> Z;
  callback_body :
    nat -> gmap string string * Callback ->
    gmap string string * Callback * option Exn;
}.

(** The two roles the login form hands to [onLogin]. *)
Inductive Role : Type :=
| admin
| customer.

(** Observable effects, in the order they happen. *)
Inductive Event : Type :=
| EvFetch (r : Request)
| EvForceLogout (cb : Callback)
| EvTimeout (ms : Z)
| EvRandom (x : Q)
| EvNow (t : Z)
| EvConsoleError (label : string) (e : Exn)
| EvPreventDefault
| EvOnLogin (role : Role).

Record World : Type := {
  env : Env;
  localStorage : gmap string string;
  forceLogoutFn : Callback;
  trace : list Event;
}.

(** The module as loaded: [let forceLogoutFn: () => void = () => {}]. *)
Definition at_load (e : Env) (ls : gmap string string) : World :=
  {| env := e; localStorage := ls; forceLogoutFn := Noop; trace := [] |}.

Definition set_localStorage (ls : gmap string string) (w : World) : World :=
  {| env := env w; localStorage := ls;
     forceLogoutFn := forceLogoutFn w; trace := trace w |}.

Definition set_forceLogoutFn (fn : Callback) (w : World) : World :=
  {| env := env w; localStorage := localStorage w;
     forceLogoutFn := fn; trace := trace w |}.

Definition emit (e : Event) (w : World) : World :=
  {| env := env w; localStorage := localStorage w;
     forceLogoutFn := forceLogoutFn w; trace := trace w ++ [e] |}.

Definition is_fetch (e : Event) : option Request :=
  match e with EvFetch r => Some r | _ => None end.

Definition is_force_logout (e : Event) : option Callback :=
  match e with EvForceLogout cb => Some cb | _ => None end.

Definition is_random (e : Event) : option Q :=
  match e with EvRandom x => Some x | _ => None end.

Definition is_now (e : Event) : option Z :=
  match e with EvNow t => Some t | _ => None end.

Definition is_timeout (e : Event) : option Z :=
  match e with EvTimeout ms => Some ms | _ => None end.

(** The requests issued, the callbacks invoked and the timers awaited so
    far. *)
Definition requests (w : World) : list Request := omap is_fetch (trace w).
Definition logout_calls (w : World) : list Callback := omap is_force_logout (trace w).
Definition timeouts (w : World) : list Z := omap is_timeout (trace w).
Definition draws (w : World) : nat := length (omap is_random (trace w)).
Definition clock_reads (w : World) : nat := length (omap is_now (trace w)).

(** ** Asynchronous methods: state and rejection

    An [async] method is run to completion from a world; it resolves with a
    value or rejects with the thrown one. *)
Inductive Outcome (A : Type) : Type :=
| Resolved (a : A)
| Rejected (e : Exn).
Arguments Resolved {A} a.
Arguments Rejected {A} e.

Definition M (A : Type) : Type := World -> Outcome A * World.

Definition ret {A} (a : A) : M A := fun w => (Resolved a, w).

Definition throw {A} (e : Exn) : M A := fun w => (Rejected e, w).

Definition bind {A B} (m : M A) (k : A -> M B) : M B :=
  fun w =>
    match m w with
    | (Resolved a, w') => k a w'
    | (Rejected e, w') => (Rejected e, w')
    end.

Definition try_catch {A} (m : M A) (handler : Exn -> M A) : M A :=
  fun w =>
    match m w with
    | (Resolved a, w') => (Resolved a, w')
    | (Rejected e, w') => handler e w'
    end.

Definition modify (f : World -> World) : M unit := fun w => (Resolved tt, f w).
Definition gets {A} (f : World -> A) : M A := fun w => (Resolved (f w), w).

Notation "x <- m ;; k" := (bind m (fun x => k))
  (at level 100, m at next level, right associativity).
Notation "m ;; k" := (bind m (fun _ => k))
  (at level 100, right associativity).

(** ** What the client calls *)

Definition localStorage_getItem (key : string) : M (option string) :=
  gets (fun w => localStorage w !! key).

Definition localStorage_removeItem (key : string) : M unit :=
  modify (fun w => set_localStorage (delete key (localStorage w)) w).

(** [getItem] returns a string or [null]. *)
Definition item_value (item : option string) : Value :=
  match item with
  | Some s => VStr s
  | None => VNull
  end.

(** [fetch(url, { method, headers, body })]: the request goes out, then the
    network decides. *)
Definition fetch (u : string) (m : option string)
    (h : list (string * string)) (b : option string) : M Response :=
  fun w =>
    let w' := emit (EvFetch {| url := u; method := m; headers := h; body := b |}) w in
    match network (env w) (requests w') with
    | inl response => (Resolved response, w')
    | inr e => (Rejected e, w')
    end.

(** [await response.json()]. *)
Definition Response_json (response : Response) : M Value :=
  match json response with
  | Some data => ret data
  | None => throw (SyntaxError "Unexpected token in JSON")
  end.

Definition Math_random : M Q :=
  fun w =>
    let x := random_tape (env w) (draws w) in
    (Resolved x, emit (EvRandom x) w).

Definition Date_now : M Z :=
  fun w =>
    let t := clock_tape (env w) (clock_reads w) in
    (Resolved t, emit (EvNow t) w).

(** [await new Promise(resolve => setTimeout(resolve, ms))]. *)
Definition sleep (ms : Z) : M unit := modify (emit (EvTimeout ms)).

Definition console_error (label : string) (e : Exn) : M unit :=
  modify (emit (EvConsoleError label e)).

(** [new Error(v)]: the message is [ToString(v)], empty for [undefined]. *)
Definition new_Error (v : Value) : Exn :=
  match v with
  | VUndefined => Error ""
  | _ =>
      match ToString v with
      | Some s => Error s
      | None => TypeError "Cannot convert object to primitive value"
      end
  end.

(** ** The API client module *)

(** [const API_BASE_URL = import.meta.env.VITE_API_URL || 'http://localhost:5000/api'] *)
Definition API_BASE_URL_of (e : Env) : string :=
  match VITE_API_URL e with
  | Some s => if String.eqb s "" then "http://localhost:5000/api" else s
  | None => "http://localhost:5000/api"
  end.

Definition API_BASE_URL : M string := gets (fun w => API_BASE_URL_of (env w)).

(** [export const setForceLogout = (fn) => { forceLogoutFn = fn; }] *)
Definition setForceLogout (fn : Callback) : M unit :=
  modify (set_forceLogoutFn fn).

(** The body of a callback, on the storage and the slot: the state it leaves
    and, when it throws, what it threw. The initial [() => {}] returns. *)
Definition run_callback (e : Env) (cb : Callback)
    (st : gmap string string * Callback) :
    gmap string string * Callback * option Exn :=
  match cb with
  | Noop => (st, None)
  | Handler id => callback_body e id st
  end.

(** [forceLogoutFn()]: the call is recorded, then the body of whatever the
    slot holds runs; what it throws propagates. *)
Definition call_forceLogoutFn : M unit :=
  fun w =>
    let cb := forceLogoutFn w in
    let '(st, thrown) := run_callback (env w) cb (localStorage w, forceLogoutFn w) in
    (match thrown with
     | None => Resolved tt
     | Some e => Rejected e
     end,
     set_forceLogoutFn (snd st) (set_localStorage (fst st) (emit (EvForceLogout cb) w))).

(** [...(token && { Authorization: `Bearer ${token}` })] *)
Definition spread_authorization (token : option string) : list (string * string) :=
  match token with
  | Some t =>
      if truthy (item_value token) then [("Authorization", "Bearer " +:+ t)] else []
  | None => []
  end.

Definition getAuthHeaders : M (list (string * string)) :=
  token <- localStorage_getItem "auth_token";;
  ret (("Content-Type", "application/json") :: spread_authorization token).

Definition getAuthHeadersForFormData : M (list (string * string)) :=
  token <- localStorage_getItem "auth_token";;
  ret (spread_authorization token).

Definition handleResponse (response : Response) : M Value :=
  if (status response =? 401)%nat || (status response =? 403)%nat then
    localStorage_removeItem "auth_token";;
    call_forceLogoutFn;;
    ret VUndefined
  else
    data <- try_catch (Response_json response)
              (fun _ => throw (Error "Invalid response format."));;
    if negb (ok response) then
      throw (new_Error
               (js_or (js_or (opt_get data "message") (opt_get data "error"))
                      (VStr "Unexpected error")))
    else ret data.

(** The headers the unauthenticated endpoints write out literally. *)
Definition json_headers : list (string * string) :=
  [("Content-Type", "application/json")].

(** *** Auth endpoints. A [data] argument is the object the caller passes;
    its TypeScript interface is erased at run time. *)

Definition generateOTP (email : string) : M Value :=
  base <- API_BASE_URL;;
  response <- fetch (base +:+ "/auth/generate-otp") (Some "POST") json_headers
                (JSON_stringify (VObj [("email", VStr email)]));;
  handleResponse response.

Definition verifyOTP (data : Value) : M Value :=
  base <- API_BASE_URL;;
  response <- fetch (base +:+ "/auth/verify-otp") (Some "POST") json_headers
                (JSON_stringify data);;
  handleResponse response.

Definition signup (data : Value) : M Value :=
  base <- API_BASE_URL;;
  response <- fetch (base +:+ "/auth/signup") (Some "POST") json_headers
                (JSON_stringify data);;
  handleResponse response.

Definition signin (data : Value) : M Value :=
  base <- API_BASE_URL;;
  response <- fetch (base +:+ "/auth/signin") (Some "POST") json_headers
                (JSON_stringify data);;
  handleResponse response.

Definition getCurrentUser : M Value :=
  try_catch
    (token <- localStorage_getItem "auth_token";;
     if negb (truthy (item_value token)) then
       ret (VObj [("user", VNull)])
     else
       base <- API_BASE_URL;;
       hs <- getAuthHeaders;;
       response <- fetch (base +:+ "/auth/me") (Some "GET") hs None;;
       handleResponse response)
    (fun error =>
       console_error "Error in getCurrentUser:" error;;
       throw error).

Definition updateProfile (data : Value) : M Value :=
  base <- API_BASE_URL;;
  hs <- getAuthHeaders;;
  response <- fetch (base +:+ "/auth/update-profile") (Some "PUT") hs
                (JSON_stringify data);;
  handleResponse response.

Definition checkAdmin : M Value :=
  base <- API_BASE_URL;;
  response <- fetch (base +:+ "/auth/check-admin") None json_headers None;;
  handleResponse response.

Definition checkUser (email : string) : M Value :=
  base <- API_BASE_URL;;
  response <- fetch (base +:+ "/auth/check-user?email=" +:+ encodeURIComponent email)
                None json_headers None;;
  handleResponse response.

Definition getAllUsers : M Value :=
  base <- API_BASE_URL;;
  hs <- getAuthHeaders;;
  response <- fetch (base +:+ "/auth/users") None hs None;;
  handleResponse response.

Definition deleteUser (userId : string) : M Value :=
  base <- API_BASE_URL;;
  hs <- getAuthHeaders;;
  response <- fetch (base +:+ "/auth/user") (Some "DELETE") hs
                (JSON_stringify (VObj [("userId", VStr userId)]));;
  handleResponse response.

(** *** Admin endpoints *)

Definition getDashboard : M Value :=
  base <- API_BASE_URL;;
  hs <- getAuthHeaders;;
  response <- fetch (base +:+ "/admin/dashboard") None hs None;;
  handleResponse response.

Definition impersonateUser (userId : string) : M Value :=
  base <- API_BASE_URL;;
  hs <- getAuthHeaders;;
  response <- fetch (base +:+ "/admin/impersonate/" +:+ userId) (Some "POST") hs None;;
  handleResponse response.

(** *** Product endpoints *)

(** The optional [params] of [getAllProducts]. *)
Record PageParams : Type := {
  skip : option Number;
  take : option Number;
}.

(** [if (params?.key) queryParams.append(name, params.key.toString())] *)
Definition append_param (name : string) (x : option Number) : list string :=
  match x with
  | Some n => if num_truthy n then [name +:+ "=" +:+ form_urlencode (num_to_string n)] else []
  | None => []
  end.

Definition getAllProducts (params : option PageParams) : M Value :=
  let queryParams :=
    append_param "skip" (params ≫= skip) ++ append_param "take" (params ≫= take) in
  base <- API_BASE_URL;;
  hs <- getAuthHeaders;;
  response <- fetch (base +:+ "/product?" +:+ join "&" queryParams) None hs None;;
  handleResponse response.

Definition getProductById (id : string) : M Value :=
  base <- API_BASE_URL;;
  hs <- getAuthHeaders;;
  response <- fetch (base +:+ "/product/" +:+ id) None hs None;;
  handleResponse response.

Definition createProduct (data : Value) : M Value :=
  base <- API_BASE_URL;;
  hs <- getAuthHeaders;;
  response <- fetch (base +:+ "/product") (Some "POST") hs (JSON_stringify data);;
  handleResponse response.

Definition updateProduct (id : string) (data : Value) : M Value :=
  base <- API_BASE_URL;;
  hs <- getAuthHeaders;;
  response <- fetch (base +:+ "/product/" +:+ id) (Some "PUT") hs
                (JSON_stringify data);;
  handleResponse response.

Definition deleteProduct (id : string) : M Value :=
  base <- API_BASE_URL;;
  hs <- getAuthHeaders;;
  response <- fetch (base +:+ "/product/" +:+ id) (Some "DELETE") hs None;;
  handleResponse response.

Definition addProductDuration (id : string) (data : Value) : M Value :=
  base <- API_BASE_URL;;
  hs <- getAuthHeaders;;
  response <- fetch (base +:+ "/product/" +:+ id +:+ "/duration") (Some "POST") hs
                (JSON_stringify data);;
  handleResponse response.

Definition addProductAvailability (id : string) (data : Value) : M Value :=
  base <- API_BASE_URL;;
  hs <- getAuthHeaders;;
  response <- fetch (base +:+ "/product/" +:+ id +:+ "/availability") (Some "POST") hs
                (JSON_stringify data);;
  handleResponse response.

Definition updateProductAvailability (availabilityId : string) (data : Value) : M Value :=
  base <- API_BASE_URL;;
  hs <- getAuthHeaders;;
  response <- fetch (base +:+ "/product/availability/" +:+ availabilityId) (Some "PUT") hs
                (JSON_stringify data);;
  handleResponse response.

Definition deleteProductAvailability (availabilityId : string) : M Value :=
  base <- API_BASE_URL;;
  hs <- getAuthHeaders;;
  response <- fetch (base +:+ "/product/availability/" +:+ availabilityId) (Some "DELETE") hs
                None;;
  handleResponse response.

(** *** Rental endpoints *)

Inductive RentalStatus : Type :=
| PENDING | QUOTATION_SENT | CONFIRMED | PICKUP_SCHEDULED
| PICKED_UP | RETURNED | COMPLETED | CANCELLED.

(** The string a [RentalStatus] is at run time. *)
Definition RentalStatus_str (s : RentalStatus) : string :=
  match s with
  | PENDING => "PENDING"
  | QUOTATION_SENT => "QUOTATION_SENT"
  | CONFIRMED => "CONFIRMED"
  | PICKUP_SCHEDULED => "PICKUP_SCHEDULED"
  | PICKED_UP => "PICKED_UP"
  | RETURNED => "RETURNED"
  | COMPLETED => "COMPLETED"
  | CANCELLED => "CANCELLED"
  end.

Definition createRental (data : Value) : M Value :=
  base <- API_BASE_URL;;
  hs <- getAuthHeaders;;
  response <- fetch (base +:+ "/rental") (Some "POST") hs (JSON_stringify data);;
  handleResponse response.

Definition getAllRentals : M Value :=
  base <- API_BASE_URL;;
  hs <- getAuthHeaders;;
  response <- fetch (base +:+ "/rental") None hs None;;
  handleResponse response.

Definition getMyRentals : M Value :=
  base <- API_BASE_URL;;
  hs <- getAuthHeaders;;
  response <- fetch (base +:+ "/rental/my") None hs None;;
  handleResponse response.

Definition updateRentalStatus (id : string) (status : RentalStatus) : M Value :=
  base <- API_BASE_URL;;
  hs <- getAuthHeaders;;
  response <- fetch (base +:+ "/rental/" +:+ id +:+ "/status") (Some "PUT") hs
                (JSON_stringify (VObj [("status", VStr (RentalStatus_str status))]));;
  handleResponse response.

Definition deleteRental (id : string) : M Value :=
  base <- API_BASE_URL;;
  hs <- getAuthHeaders;;
  response <- fetch (base +:+ "/rental/" +:+ id) (Some "DELETE") hs None;;
  handleResponse response.

(** *** Quotation endpoints *)

Definition createQuotation (data : Value) : M Value :=
  base <- API_BASE_URL;;
  hs <- getAuthHeaders;;
  response <- fetch (base +:+ "/quotation") (Some "POST") hs (JSON_stringify data);;
  handleResponse response.

Definition acceptQuotation (id : string) : M Value :=
  base <- API_BASE_URL;;
  hs <- getAuthHeaders;;
  response <- fetch (base +:+ "/quotation/" +:+ id +:+ "/accept") (Some "POST") hs
                None;;
  handleResponse response.

Definition getAllQuotations : M Value :=
  base <- API_BASE_URL;;
  hs <- getAuthHeaders;;
  response <- fetch (base +:+ "/quotation") None hs None;;
  handleResponse response.

Definition getMyQuotations : M Value :=
  base <- API_BASE_URL;;
  hs <- getAuthHeaders;;
  response <- fetch (base +:+ "/quotation/my") None hs None;;
  handleResponse response.

Definition deleteQuotation (id : string) : M Value :=
  base <- API_BASE_URL;;
  hs <- getAuthHeaders;;
  response <- fetch (base +:+ "/quotation/" +:+ id) (Some "DELETE") hs None;;
  handleResponse response.

(** *** Invoice endpoints *)

Inductive InvoiceStatus : Type :=
| INVOICE_PENDING | INVOICE_PAID | INVOICE_OVERDUE | INVOICE_CANCELLED.

Definition InvoiceStatus_str (s : InvoiceStatus) : string :=
  match s with
  | INVOICE_PENDING => "PENDING"
  | INVOICE_PAID => "PAID"
  | INVOICE_OVERDUE => "OVERDUE"
  | INVOICE_CANCELLED => "CANCELLED"
  end.

Definition createInvoice (data : Value) : M Value :=
  base <- API_BASE_URL;;
  hs <- getAuthHeaders;;
  response <- fetch (base +:+ "/invoice") (Some "POST") hs (JSON_stringify data);;
  handleResponse response.

Definition getAllInvoices : M Value :=
  base <- API_BASE_URL;;
  hs <- getAuthHeaders;;
  response <- fetch (base +:+ "/invoice") None hs None;;
  handleResponse response.

Definition getInvoiceById (id : string) : M Value :=
  base <- API_BASE_URL;;
  hs <- getAuthHeaders;;
  response <- fetch (base +:+ "/invoice/" +:+ id) None hs None;;
  handleResponse response.

Definition updateInvoiceStatus (id : string) (status : InvoiceStatus) : M Value :=
  base <- API_BASE_URL;;
  hs <- getAuthHeaders;;
  response <- fetch (base +:+ "/invoice/" +:+ id +:+ "/status") (Some "PUT") hs
                (JSON_stringify (VObj [("status", VStr (InvoiceStatus_str status))]));;
  handleResponse response.

Definition deleteInvoice (id : string) : M Value :=
  base <- API_BASE_URL;;
  hs <- getAuthHeaders;;
  response <- fetch (base +:+ "/invoice/" +:+ id) (Some "DELETE") hs None;;
  handleResponse response.

(** *** Payment endpoints *)

Inductive PaymentStatus : Type :=
| PAYMENT_PENDING | PAYMENT_SUCCESS | PAYMENT_FAILED | PAYMENT_REFUNDED.

Definition PaymentStatus_str (s : PaymentStatus) : string :=
  match s with
  | PAYMENT_PENDING => "PENDING"
  | PAYMENT_SUCCESS => "SUCCESS"
  | PAYMENT_FAILED => "FAILED"
  | PAYMENT_REFUNDED => "REFUNDED"
  end.

Definition createPayment (data : Value) : M Value :=
  base <- API_BASE_URL;;
  hs <- getAuthHeaders;;
  response <- fetch (base +:+ "/payment") (Some "POST") hs (JSON_stringify data);;
  handleResponse response.

Definition getMyPayments : M Value :=
  base <- API_BASE_URL;;
  hs <- getAuthHeaders;;
  response <- fetch (base +:+ "/payment/my") None hs None;;
  handleResponse response.

Definition getAllPayments : M Value :=
  base <- API_BASE_URL;;
  hs <- getAuthHeaders;;
  response <- fetch (base +:+ "/payment") None hs None;;
  handleResponse response.

Definition updatePaymentStatus (id : string) (status : PaymentStatus) : M Value :=
  base <- API_BASE_URL;;
  hs <- getAuthHeaders;;
  response <- fetch (base +:+ "/payment/" +:+ id +:+ "/status") (Some "PUT") hs
                (JSON_stringify (VObj [("status", VStr (PaymentStatus_str status))]));;
  handleResponse response.

Definition deletePayment (id : string) : M Value :=
  base <- API_BASE_URL;;
  hs <- getAuthHeaders;;
  response <- fetch (base +:+ "/payment/" +:+ id) (Some "DELETE") hs None;;
  handleResponse response.

(** The double nearest to the literal [0.1], exactly. *)
Definition one_tenth : Q := 3602879701896397 # 36028797018963968.

(** [Math.random() > 0.1] *)
Definition isSuccess (x : Q) : bool := negb (Qle_bool x one_tenth).

(** [`${t}`] for the integer a clock reading is (plain decimal digits below
    [1e21]). *)
Definition timestamp_str (t : Z) : string := pretty t.

(** Mock payment processing for demo. *)
Definition processPayment (paymentData : Value) : M Value :=
  sleep 2000;;
  x <- Math_random;;
  if isSuccess x then
    t <- Date_now;;
    y <- Math_random;;
    ret (VObj [("success", VBool true);
               ("transactionId",
                VStr ("TXN_" +:+ timestamp_str t +:+ "_" +:+ substr 2 9 (toString36 y)));
               ("message", VStr "Payment processed successfully")])
  else
    throw (Error "Payment failed. Please try again.").

(** *** Notification endpoints *)

Definition createNotification (data : Value) : M Value :=
  base <- API_BASE_URL;;
  hs <- getAuthHeaders;;
  response <- fetch (base +:+ "/notification") (Some "POST") hs (JSON_stringify data);;
  handleResponse response.

Definition getMyNotifications : M Value :=
  base <- API_BASE_URL;;
  hs <- getAuthHeaders;;
  response <- fetch (base +:+ "/notification") None hs None;;
  handleResponse response.

(** [isRead: boolean = true]: [None] is the omitted argument. *)
Definition markNotificationAsRead (id : string) (isRead : option bool) : M Value :=
  let isRead := default true isRead in
  base <- API_BASE_URL;;
  hs <- getAuthHeaders;;
  response <- fetch (base +:+ "/notification/" +:+ id +:+ "/read") (Some "PUT") hs
                (JSON_stringify (VObj [("isRead", VBool isRead)]));;
  handleResponse response.

Definition deleteNotification (id : string) : M Value :=
  base <- API_BASE_URL;;
  hs <- getAuthHeaders;;
  response <- fetch (base +:+ "/notification/" +:+ id) (Some "DELETE") hs None;;
  handleResponse response.

(** *** Pickup endpoints *)

Definition createPickup (data : Value) : M Value :=
  base <- API_BASE_URL;;
  hs <- getAuthHeaders;;
  response <- fetch (base +:+ "/pickup") (Some "POST") hs (JSON_stringify data);;
  handleResponse response.

Definition completePickup (id : string) : M Value :=
  base <- API_BASE_URL;;
  hs <- getAuthHeaders;;
  response <- fetch (base +:+ "/pickup/" +:+ id +:+ "/complete") (Some "PUT") hs None;;
  handleResponse response.

Definition getAllPickups : M Value :=
  base <- API_BASE_URL;;
  hs <- getAuthHeaders;;
  response <- fetch (base +:+ "/pickup") None hs None;;
  handleResponse response.

Definition getMyPickups : M Value :=
  base <- API_BASE_URL;;
  hs <- getAuthHeaders;;
  response <- fetch (base +:+ "/pickup/my") None hs None;;
  handleResponse response.

Definition deletePickup (id : string) : M Value :=
  base <- API_BASE_URL;;
  hs <- getAuthHeaders;;
  response <- fetch (base +:+ "/pickup/" +:+ id) (Some "DELETE") hs None;;
  handleResponse response.

(** *** Rental return endpoints *)

Definition createRentalReturn (data : Value) : M Value :=
  base <- API_BASE_URL;;
  hs <- getAuthHeaders;;
  response <- fetch (base +:+ "/rental-return") (Some "POST") hs (JSON_stringify data);;
  handleResponse response.

Definition completeRentalReturn (id : string) : M Value :=
  base <- API_BASE_URL;;
  hs <- getAuthHeaders;;
  response <- fetch (base +:+ "/rental-return/" +:+ id +:+ "/complete") (Some "PUT") hs
                None;;
  handleResponse response.

Definition getAllRentalReturns : M Value :=
  base <- API_BASE_URL;;
  hs <- getAuthHeaders;;
  response <- fetch (base +:+ "/rental-return") None hs None;;
  handleResponse response.

Definition getMyRentalReturns : M Value :=
  base <- API_BASE_URL;;
  hs <- getAuthHeaders;;
  response <- fetch (base +:+ "/rental-return/my") None hs None;;
  handleResponse response.

Definition updateRentalReturn (id : string) (data : Value) : M Value :=
  base <- API_BASE_URL;;
  hs <- getAuthHeaders;;
  response <- fetch (base +:+ "/rental-return/" +:+ id) (Some "PUT") hs
                (JSON_stringify data);;
  handleResponse response.

Definition deleteRentalReturn (id : string) : M Value :=
  base <- API_BASE_URL;;
  hs <- getAuthHeaders;;
  response <- fetch (base +:+ "/rental-return/" +:+ id) (Some "DELETE") hs None;;
  handleResponse response.

(** *** Reports endpoints (mock data) *)

Definition ms_per_day : Z := (1000 * 60 * 60 * 24)%Z.

(** [Math.ceil((end - start) / ms_per_day)] on two time values. Time values
    are integers of magnitude at most 8.64e15; while [|end - start| <= 2^53]
    the subtraction is exact and the rounding of the quotient cannot reach an
    integer, so the double computation agrees with this one. *)
Definition ceil_days (start_ms end_ms : Z) : Z :=
  (- ((- (end_ms - start_ms)) / ms_per_day))%Z.

(** The [length] handed to [Array.from]: [ToLength] of the number of days.
    An end at or before the start gives a count that is not positive, in
    doubles as in integers, hence length 0; up to [2^53] ms apart the count
    is the exact ceiling; further apart it is what the doubles give. *)
Definition revenue_length (start_ms end_ms : Z) : nat :=
  if (end_ms - start_ms <=? 2 ^ 53)%Z
  then Z.to_nat (ceil_days start_ms end_ms)
  else Z.to_nat (ceil_days_rounded start_ms end_ms).

(** One element of the array, [{ date, revenue, rentals }], from the index
    and the two draws. *)
Definition revenue_entry (start_ms : Z) (i : nat) (x y : Q) : Value :=
  VObj [("date", VStr (iso_date (start_ms + Z.of_nat i * 24 * 60 * 60 * 1000)%Z));
        ("revenue", VNum (num_of_Z (floor_times x 5000 + 1000)));
        ("rentals", VNum (num_of_Z (floor_times y 20 + 5)))].

(** The callback [(_, i) => ({ ... })], for a valid start date. *)
Definition revenue_record (start_ms : Z) (i : nat) : M Value :=
  x <- Math_random;;
  y <- Math_random;;
  ret (revenue_entry start_ms i x y).

(** [Array.from({ length: n }, f)], indices [i, i+1, ...] in order. *)
Fixpoint Array_from (n : nat) (i : nat) (f : nat -> M Value) : M (list Value) :=
  match n with
  | O => ret []
  | S n' =>
      x <- f i;;
      rest <- Array_from n' (S i) f;;
      ret (x :: rest)
  end.

(** [ToLength] sends a negative [days] to 0, and [NaN] (an invalid date on
    either side) too: the array is then empty and no element is computed. *)
Definition getRevenue (startDate endDate : string) : M Value :=
  sleep 500;;
  data <- match Date_getTime endDate, Date_getTime startDate with
          | Some e, Some s =>
              Array_from (revenue_length s e) 0 (revenue_record s)
          | _, _ => ret []
          end;;
  ret (VObj [("data", VArr data)]).

Definition status_count (status : string) (count : Z) : Value :=
  VObj [("status", VStr status); ("count", VNum (num_of_Z count))].

Definition getRentalStatus : M Value :=
  sleep 300;;
  ret (VObj [("data", VArr [
         status_count "CONFIRMED" 25;
         status_count "PICKUP_SCHEDULED" 15;
         status_count "PICKED_UP" 30;
         status_count "RETURNED" 40;
         status_count "COMPLETED" 80])]).

Definition top_product (productName : string) (totalRevenue totalRentals : Z) : Value :=
  VObj [("productName", VStr productName);
        ("totalRevenue", VNum (num_of_Z totalRevenue));
        ("totalRentals", VNum (num_of_Z totalRentals))].

Definition getTopProducts : M Value :=
  sleep 400;;
  ret (VObj [("data", VArr [
         top_product "Canon EOS R5" 25000 45;
         top_product ("MacBook Pro 16" +:+ dq) 18000 32;
         top_product "Sony A7 III" 15000 38;
         top_product "DJI Mavic Air 2" 12000 28;
         top_product "Nikon D850" 10000 22])]).

(** ** The public surface of [apiService]

    One constructor per method of the class, with its arguments. *)
Inductive ApiCall : Type :=
| Call_generateOTP (email : string)
| Call_verifyOTP (data : Value)
| Call_signup (data : Value)
| Call_signin (data : Value)
| Call_getCurrentUser
| Call_updateProfile (data : Value)
| Call_checkAdmin
| Call_checkUser (email : string)
| Call_getAllUsers
| Call_deleteUser (userId : string)
| Call_getDashboard
| Call_impersonateUser (userId : string)
| Call_getAllProducts (params : option PageParams)
| Call_getProductById (id : string)
| Call_createProduct (data : Value)
| Call_updateProduct (id : string) (data : Value)
| Call_deleteProduct (id : string)
| Call_addProductDuration (id : string) (data : Value)
| Call_addProductAvailability (id : string) (data : Value)
| Call_updateProductAvailability (availabilityId : string) (data : Value)
| Call_deleteProductAvailability (availabilityId : string)
| Call_createRental (data : Value)
| Call_getAllRentals
| Call_getMyRentals
| Call_updateRentalStatus (id : string) (status : RentalStatus)
| Call_deleteRental (id : string)
| Call_createQuotation (data : Value)
| Call_acceptQuotation (id : string)
| Call_getAllQuotations
| Call_getMyQuotations
| Call_deleteQuotation (id : string)
| Call_createInvoice (data : Value)
| Call_getAllInvoices
| Call_getInvoiceById (id : string)
| Call_updateInvoiceStatus (id : string) (status : InvoiceStatus)
| Call_deleteInvoice (id : string)
| Call_createPayment (data : Value)
| Call_getMyPayments
| Call_getAllPayments
| Call_updatePaymentStatus (id : string) (status : PaymentStatus)
| Call_deletePayment (id : string)
| Call_processPayment (paymentData : Value)
| Call_createNotification (data : Value)
| Call_getMyNotifications
| Call_markNotificationAsRead (id : string) (isRead : option bool)
| Call_deleteNotification (id : string)
| Call_createPickup (data : Value)
| Call_completePickup (id : string)
| Call_getAllPickups
| Call_getMyPickups
| Call_deletePickup (id : string)
| Call_createRentalReturn (data : Value)
| Call_completeRentalReturn (id : string)
| Call_getAllRentalReturns
| Call_getMyRentalReturns
| Call_updateRentalReturn (id : string) (data : Value)
| Call_deleteRentalReturn (id : string)
| Call_getRevenue (startDate endDate : string)
| Call_getRentalStatus
| Call_getTopProducts.

Definition invoke (c : ApiCall) : M Value :=
  match c with
  | Call_generateOTP email => generateOTP email
  | Call_verifyOTP data => verifyOTP data
  | Call_signup data => signup data
  | Call_signin data => signin data
  | Call_getCurrentUser => getCurrentUser
  | Call_updateProfile data => updateProfile data
  | Call_checkAdmin => checkAdmin
  | Call_checkUser email => checkUser email
  | Call_getAllUsers => getAllUsers
  | Call_deleteUser userId => deleteUser userId
  | Call_getDashboard => getDashboard
  | Call_impersonateUser userId => impersonateUser userId
  | Call_getAllProducts params => getAllProducts params
  | Call_getProductById id => getProductById id
  | Call_createProduct data => createProduct data
  | Call_updateProduct id data => updateProduct id data
  | Call_deleteProduct id => deleteProduct id
  | Call_addProductDuration id data => addProductDuration id data
  | Call_addProductAvailability id data => addProductAvailability id data
  | Call_updateProductAvailability availabilityId data => updateProductAvailability availabilityId data
  | Call_deleteProductAvailability availabilityId => deleteProductAvailability availabilityId
  | Call_createRental data => createRental data
  | Call_getAllRentals => getAllRentals
  | Call_getMyRentals => getMyRentals
  | Call_updateRentalStatus id status => updateRentalStatus id status
  | Call_deleteRental id => deleteRental id
  | Call_createQuotation data => createQuotation data
  | Call_acceptQuotation id => acceptQuotation id
  | Call_getAllQuotations => getAllQuotations
  | Call_getMyQuotations => getMyQuotations
  | Call_deleteQuotation id => deleteQuotation id
  | Call_createInvoice data => createInvoice data
  | Call_getAllInvoices => getAllInvoices
  | Call_getInvoiceById id => getInvoiceById id
  | Call_updateInvoiceStatus id status => updateInvoiceStatus id status
  | Call_deleteInvoice id => deleteInvoice id
  | Call_createPayment data => createPayment data
  | Call_getMyPayments => getMyPayments
  | Call_getAllPayments => getAllPayments
  | Call_updatePaymentStatus id status => updatePaymentStatus id status
  | Call_deletePayment id => deletePayment id
  | Call_processPayment paymentData => processPayment paymentData
  | Call_createNotification data => createNotification data
  | Call_getMyNotifications => getMyNotifications
  | Call_markNotificationAsRead id isRead => markNotificationAsRead id isRead
  | Call_deleteNotification id => deleteNotification id
  | Call_createPickup data => createPickup data
  | Call_completePickup id => completePickup id
  | Call_getAllPickups => getAllPickups
  | Call_getMyPickups => getMyPickups
  | Call_deletePickup id => deletePickup id
  | Call_createRentalReturn data => createRentalReturn data
  | Call_completeRentalReturn id => completeRentalReturn id
  | Call_getAllRentalReturns => getAllRentalReturns
  | Call_getMyRentalReturns => getMyRentalReturns
  | Call_updateRentalReturn id data => updateRentalReturn id data
  | Call_deleteRentalReturn id => deleteRentalReturn id
  | Call_getRevenue startDate endDate => getRevenue startDate endDate
  | Call_getRentalStatus => getRentalStatus
  | Call_getTopProducts => getTopProducts
  end.

(** The six methods that write [{ 'Content-Type': 'application/json' }] out
    instead of calling [getAuthHeaders]. *)
Definition sends_literal_headers (c : ApiCall) : bool :=
  match c with
  | Call_generateOTP _ | Call_verifyOTP _ | Call_signup _ | Call_signin _
  | Call_checkAdmin | Call_checkUser _ => true
  | _ => false
  end.

(** The four methods whose body contains no [fetch]. *)
Definition is_mock (c : ApiCall) : bool :=
  match c with
  | Call_processPayment _ | Call_getRevenue _ _
  | Call_getRentalStatus | Call_getTopProducts => true
  | _ => false
  end.

(** The requests a call adds to those already issued. *)
Definition new_requests (c : ApiCall) (w : World) : list Request :=
  drop (length (requests w)) (requests (snd (invoke c w))).

(** ** Login.tsx *)

(** The two [useState] cells of the form. *)
Record LoginState : Type := {
  email : string;
  password : string;
}.

(** [handleSubmit]: [e.preventDefault()], then [onLogin(role)]. *)
Definition handleSubmit (st : LoginState) : M unit :=
  modify (emit EvPreventDefault);;
  let role := if includes (email st) "admin" then admin else customer in
  modify (emit (EvOnLogin role)).

End Client.

Arguments Resolved {A} a.
Arguments Rejected {A} e.

(** ** Observations used to state the properties *)

Section Observations.
Context {P : Platform}.

(** The shape all but five methods share once the base URL and the headers
    are read: one [fetch], then [handleResponse] on what it resolved with. *)
Definition fetch_and_handle (u : string) (m : option string)
    (h : list (string * string)) (b : option string) : M Value :=
  bind (fetch u m h b) handleResponse.

(** The first test of [handleResponse]. *)
Definition unauthorized (response : Response) : bool :=
  (status response =? 401)%nat || (status response =? 403)%nat.

(** The headers [getAuthHeaders] returns in world [w]. *)
Definition auth_headers (w : World) : list (string * string) :=
  ("Content-Type", "application/json")
    :: spread_authorization (localStorage w !! "auth_token").

(** World [w] after the events [evs]. *)
Definition extend (evs : list Event) (w : World) : World :=
  {| env := env w; localStorage := localStorage w;
     forceLogoutFn := forceLogoutFn w; trace := trace w ++ evs |}.

(** What [processPayment] resolves with, from the clock reading and the
    second draw. *)
Definition payment_receipt (t : Z) (y : Q) : Value :=
  VObj [("success", VBool true);
        ("transactionId",
         VStr ("TXN_" +:+ timestamp_str t +:+ "_" +:+ substr 2 9 (toString36 y)));
        ("message", VStr "Payment processed successfully")].

(** The records [getRevenue] builds from draw number [d] on, and the draws
    they consume. *)
Fixpoint revenue_data (tape : nat -> Q) (start_ms : Z) (d i n : nat) : list Value :=
  match n with
  | O => []
  | S n' =>
      revenue_entry start_ms i (tape d) (tape (S d))
        :: revenue_data tape start_ms (S (S d)) (S i) n'
  end.

Fixpoint revenue_draws (tape : nat -> Q) (d n : nat) : list Event :=
  match n with
  | O => []
  | S n' => EvRandom (tape d) :: EvRandom (tape (S d)) :: revenue_draws tape (S (S d)) n'
  end.

(** The one request [getCurrentUser] can issue. *)
Definition me_request (w : World) : Request :=
  {| url := API_BASE_URL_of (env w) +:+ "/auth/me"; method := Some "GET";
     headers := auth_headers w; body := None |}.

(** Call [c], made in world [w], issues one request and the network answers
    it with [response]. *)
Definition answered (c : ApiCall) (w : World) (response : Response) : Prop :=
  exists r, new_requests c w = [r] /\
            network (env w) (requests w ++ [r]) = inl response.

(** Two worlds agree on what the client owns and on the callbacks invoked. *)
Definition same_session (w1 w2 : World) : Prop :=
  localStorage w1 = localStorage w2 /\
  forceLogoutFn w1 = forceLogoutFn w2 /\
  logout_calls w1 = logout_calls w2.

End Observations.

(** ** The application shell

    [App] keeps four [useState] cells and hands their setters to the screens
    it renders: [Login] gets [onLogin] and [onShowSignup], [Signup] gets
    [onShowLogin], [Navigation] gets [setCurrentView], [setUserRole] and
    [onLogout]. *)

Record AppState : Type := {
  currentView : string;
  userRole : Role;
  isAuthenticated : bool;
  showSignup : bool;
}.

(** The cells as [useState] initialises them. *)
Definition App_initial : AppState :=
  {| currentView := "dashboard"; userRole := admin;
     isAuthenticated := false; showSignup := false |}.

(** [handleLogin]: [setUserRole(role); setIsAuthenticated(true)]. *)
Definition handleLogin (role : Role) (st : AppState) : AppState :=
  {| currentView := currentView st; userRole := role;
     isAuthenticated := true; showSignup := showSignup st |}.

(** The components [renderContent] can return. *)
Inductive Content : Type :=
| Dashboard
| ProductManagement
| OrderManagement
| Reports
| AdvancedPricing
| PaymentSetupGuide
| CustomerPortal.

Definition renderContent (st : AppState) : Content :=
  match userRole st with
  | customer => CustomerPortal
  | admin =>
      if String.eqb (currentView st) "dashboard" then Dashboard
      else if String.eqb (currentView st) "products" then ProductManagement
      else if String.eqb (currentView st) "orders" then OrderManagement
      else if String.eqb (currentView st) "reports" then Reports
      else if String.eqb (currentView st) "pricing" then AdvancedPricing
      else if String.eqb (currentView st) "payments" then PaymentSetupGuide
      else Dashboard
  end.

(** What [App] returns: one of the two forms, or the navigation bar around
    the content, with the notification panel for an admin. *)
Inductive Screen : Type :=
| SignupScreen
| LoginScreen
| MainScreen (content : Content) (notifications : bool).

Definition render (st : AppState) : Screen :=
  if negb (isAuthenticated st) then
    if showSignup st then SignupScreen else LoginScreen
  else
    MainScreen (renderContent st)
               (match userRole st with admin => true | customer => false end).

(** The callbacks [App] passes down. *)
Inductive AppAction : Type :=
| OnLogin (role : Role)
| OnShowSignup
| OnShowLogin
| SetCurrentView (view : string)
| SetUserRole (role : Role)
| OnLogout.

Definition dispatch (a : AppAction) (st : AppState) : AppState :=
  match a with
  | OnLogin role => handleLogin role st
  | OnShowSignup =>
      {| currentView := currentView st; userRole := userRole st;
         isAuthenticated := isAuthenticated st; showSignup := true |}
  | OnShowLogin =>
      {| currentView := currentView st; userRole := userRole st;
         isAuthenticated := isAuthenticated st; showSignup := false |}
  | SetCurrentView view =>
      {| currentView := view; userRole := userRole st;
         isAuthenticated := isAuthenticated st; showSignup := showSignup st |}
  | SetUserRole role =>
      {| currentView := currentView st; userRole := role;
         isAuthenticated := isAuthenticated st; showSignup := showSignup st |}
  | OnLogout =>
      {| currentView := currentView st; userRole := userRole st;
         isAuthenticated := false; showSignup := showSignup st |}
  end.

(** Which callbacks the screen on display holds. *)
Definition offered (screen : Screen) (a : AppAction) : bool :=
  match screen, a with
  | LoginScreen, (OnLogin _ | OnShowSignup) => true
  | SignupScreen, OnShowLogin => true
  | MainScreen _ _, (SetCurrentView _ | SetUserRole _ | OnLogout) => true
  | _, _ => false
  end.

(** The states [App] can be in: the initial one, and what a callback of the
    screen on display leads to. *)
Inductive reachable : AppState -> Prop :=
| reachable_initial : reachable App_initial
| reachable_step (st : AppState) (a : AppAction) :
    reachable st -> offered (render st) a = true -> reachable (dispatch a st).

(** [App] receiving, in order, the roles [Login] passed to [onLogin]. *)
Definition deliver (roles : list Role) (st : AppState) : AppState :=
  fold_left (fun st role => handleLogin role st) roles st.

(** ** Further observations *)

Section Session.
Context {P : Platform}.

Definition is_console_error (e : Event) : option (string * Exn) :=
  match e with EvConsoleError label x => Some (label, x) | _ => None end.

Definition is_on_login (e : Event) : option Role :=
  match e with EvOnLogin role => Some role | _ => None end.

(** What has been written with [console.error], and the roles passed to
    [onLogin], so far. *)
Definition console_log (w : World) : list (string * Exn) :=
  omap is_console_error (trace w).
Definition onLogin_calls (w : World) : list Role := omap is_on_login (trace w).

(** Successive calls of [setForceLogout]. *)
Fixpoint register_all (fns : list Callback) : M unit :=
  match fns with
  | [] => ret tt
  | fn :: rest => bind (setForceLogout fn) (fun _ => register_all rest)
  end.

(** The one timer a mock method awaits. *)
Definition mock_delay (c : ApiCall) : Z :=
  match c with
  | Call_processPayment _ => 2000
  | Call_getRevenue _ _ => 500
  | Call_getRentalStatus => 300
  | Call_getTopProducts => 400
  | _ => 0
  end.

(** The JSON text of [{ status }]. *)
Definition status_body (status : string) : string :=
  "{" +:+ dq +:+ "status" +:+ dq +:+ ":" +:+ dq +:+ status +:+ dq +:+ "}".

End Session.

(** ** A concrete platform and concrete worlds, to run the client on

    Numbers are integers printed in decimal, dates are day counts written
    [dN], and the two encoders are the identity (as they are on letters and
    digits). *)
Module Sample.

Definition day_of (s : string) : option Z :=
  if String.eqb s "d0" then Some 0%Z
  else if String.eqb s "d2" then Some (2 * ms_per_day)%Z
  else if String.eqb s "d2.5" then Some (2 * ms_per_day + ms_per_day / 2)%Z
  else None.

#[export] Instance platform : Platform := {|
  Number := Z;
  num_of_Z := fun z => z;
  num_truthy := fun z => negb (Z.eqb z 0);
  num_to_string := pretty;
  num_to_json := pretty;
  encodeURIComponent := fun s => s;
  form_urlencode := fun s => s;
  Date_getTime := day_of;
  iso_date := fun t => "d" +:+ pretty (t / ms_per_day)%Z;
  toString36 := fun _ => "0.4fzyo82mvyr";
  floor_times := fun x n => Qfloor (x * inject_Z n);
  ceil_days_rounded := fun s e => ((e - s) / ms_per_day)%Z;
|}.

(** A backend that answers every request with [status] and a body that
    parses to [data] (or does not parse). *)
Definition answering (status : nat) (data : option Value) : Env := {|
  VITE_API_URL := None;
  network := fun _ => inl {| status := status; json := data |};
  random_tape := fun n => if Nat.even n then (1 # 2)%Q else (1 # 20)%Q;
  clock_tape := fun _ => 1700000000000%Z;
  callback_body := fun _ st => (st, None);
|}.

Definition world (e : Env) (token : option string) (fn : Callback) : World := {|
  env := e;
  localStorage := match token with
                  | Some t => {[ "auth_token" := t ]}
                  | None => ∅
                  end;
  forceLogoutFn := fn;
  trace := [];
|}.

(** A world where the first random draw is low. *)
Definition unlucky : World := {|
  env := {| VITE_API_URL := None;
            network := fun _ => inr (TypeError "Failed to fetch");
            random_tape := fun _ => (1 # 20)%Q;
            clock_tape := fun _ => 1700000000000%Z;
            callback_body := fun _ st => (st, None) |};
  localStorage := ∅;
  forceLogoutFn := Noop;
  trace := [];
|}.

(** A stored token [abc], a registered callback, and a backend that answers
    401 with a body that does not parse. *)
Definition expired : World := world (answering 401 None) (Some "abc") (Handler 1).

(** The same session facing a backend that answers 200 with [{}]. *)
Definition healthy : World :=
  world (answering 200 (Some (VObj []))) (Some "abc") (Handler 1).

(** Nothing stored, nothing registered. *)
Definition logged_out : World := at_load (answering 200 (Some (VObj []))) ∅.

Definition unauthorized_unparsable : Response := {| status := 401; json := None |}.
Definition ok_empty : Response := {| status := 200; json := Some (VObj []) |}.

Definition failed_with_message : Response :=
  {| status := 409; json := Some (VObj [("message", VStr "Product is booked")]) |}.

Definition failed_with_error : Response :=
  {| status := 500; json := Some (VObj [("error", VStr "boom")]) |}.

(** The request [getAllRentals] issues from the sample session. *)
Definition rentals_request : Request :=
  {| url := "http://localhost:5000/api/rental"; method := None;
     headers := [("Content-Type", "application/json");
                 ("Authorization", "Bearer abc")];
     body := None |}.

(** What [getAllRentals] issues when nothing is stored. *)
Definition anonymous_rentals_request : Request :=
  {| url := "http://localhost:5000/api/rental"; method := None;
     headers := [("Content-Type", "application/json")]; body := None |}.

(** A stored token, the initial no-op in the slot, and a backend that
    answers 401. *)
Definition expired_unregistered : World :=
  world (answering 401 None) (Some "abc") Noop.

(** The backend of [answering], with registered callbacks that throw. *)
Definition answering_faulty (status : nat) (data : option Value) : Env := {|
  VITE_API_URL := None;
  network := fun _ => inl {| status := status; json := data |};
  random_tape := fun n => if Nat.even n then (1 # 2)%Q else (1 # 20)%Q;
  clock_tape := fun _ => 1700000000000%Z;
  callback_body := fun _ st => (st, Some (Error "router is gone"));
|}.

(** A stored token, a registered callback that throws, and a backend that
    answers 401. *)
Definition expired_faulty : World :=
  world (answering_faulty 401 None) (Some "abc") (Handler 1).

Definition credentials : Value :=
  VObj [("email", VStr "a@b.c"); ("password", VStr "secret")].

End Sample.

(** ** Properties *)

Section Properties.
Context {P : Platform}.

(** *** Substring search *)

Lemma append_cons (c : ascii) (s t : string) :
  String c s +:+ t = String c (s +:+ t).
Proof. reflexivity. Qed.

Lemma append_nil (t : string) : "" +:+ t = t.
Proof. reflexivity. Qed.

Lemma prefix_spec (p s : string) :
  String.prefix p s = true <-> exists post, s = p +:+ post.
Proof.
  revert s. induction p as [|c p IH]; intros s; simpl.
  - split; [intros _; now exists s | now destruct s].
  - destruct s as [|d s]; simpl.
    + split; [discriminate | intros [post H]; discriminate].
    + destruct (Ascii.ascii_dec c d) as [->|Hne].
      * rewrite IH. setoid_rewrite append_cons.
        split; intros [post H]; exists post; congruence.
      * split; [discriminate | intros [post H]].
        rewrite append_cons in H. congruence.
Qed.

Lemma includes_nil (needle : string) :
  includes "" needle = String.prefix needle "".
Proof. cbn [includes]. apply orb_false_r. Qed.

Lemma includes_cons (c : ascii) (s needle : string) :
  includes (String c s) needle =
  String.prefix needle (String c s) || includes s needle.
Proof. reflexivity. Qed.

Lemma includes_spec (s needle : string) :
  includes s needle = true <-> exists pre post, s = pre +:+ needle +:+ post.
Proof.
  induction s as [|c s IH].
  - rewrite includes_nil, prefix_spec. split.
    + intros [post H]. now exists "", post.
    + intros [pre [post H]]. destruct pre; [now exists post | discriminate].
  - rewrite includes_cons, orb_true_iff, prefix_spec, IH. split.
    + intros [[post H] | [pre [post H]]].
      * now exists "", post.
      * exists (String c pre), post. rewrite append_cons. now rewrite H.
    + intros [pre [post H]]. destruct pre as [|d pre].
      * left. now exists post.
      * right. exists pre, post. rewrite append_cons in H. congruence.
Qed.

(** *** The trace and its projections *)

Lemma requests_emit (e : Event) (w : World) :
  requests (emit e w) = requests w ++ from_option (fun r => [r]) [] (is_fetch e).
Proof.
  unfold requests, emit; simpl. rewrite omap_app. simpl.
  now destruct (is_fetch e).
Qed.

Lemma logout_calls_emit (e : Event) (w : World) :
  logout_calls (emit e w) =
  logout_calls w ++ from_option (fun cb => [cb]) [] (is_force_logout e).
Proof.
  unfold logout_calls, emit; simpl. rewrite omap_app. simpl.
  now destruct (is_force_logout e).
Qed.

Lemma timeouts_emit (e : Event) (w : World) :
  timeouts (emit e w) = timeouts w ++ from_option (fun ms => [ms]) [] (is_timeout e).
Proof.
  unfold timeouts, emit; simpl. rewrite omap_app. simpl.
  now destruct (is_timeout e).
Qed.

Lemma draws_emit (e : Event) (w : World) :
  draws (emit e w) = draws w + length (option_list (is_random e)).
Proof.
  unfold draws, emit; simpl. rewrite omap_app, length_app. simpl.
  now destruct (is_random e).
Qed.

(** *** [handleResponse] *)

Lemma handleResponse_401_403 (response : Response) (w : World) :
  unauthorized response = true ->
  handleResponse response w =
  (let out := run_callback (env w) (forceLogoutFn w)
                (delete "auth_token" (localStorage w), forceLogoutFn w) in
   (match snd out with
    | None => Resolved VUndefined
    | Some e => Rejected e
    end,
    {| env := env w; localStorage := fst (fst out); forceLogoutFn := snd (fst out);
       trace := trace w ++ [EvForceLogout (forceLogoutFn w)] |})).
Proof.
  intros H. unfold handleResponse, unauthorized in *. rewrite H.
  unfold bind, localStorage_removeItem, modify, call_forceLogoutFn. simpl.
  now destruct (run_callback _ _ _) as [[ls fn] [e|]].
Qed.

Lemma handleResponse_other (response : Response) (w : World) :
  unauthorized response = false ->
  handleResponse response w =
  (match json response with
   | None => Rejected (Error "Invalid response format.")
   | Some data =>
       if ok response then Resolved data
       else Rejected (new_Error
              (js_or (js_or (opt_get data "message") (opt_get data "error"))
                     (VStr "Unexpected error")))
   end, w).
Proof.
  intros H. unfold handleResponse, unauthorized in *. rewrite H.
  unfold bind, try_catch, Response_json.
  destruct (json response) as [data|]; simpl; [|reflexivity].
  now destruct (ok response).
Qed.

Lemma unauthorized_true (response : Response) :
  unauthorized response = true <-> status response = 401 \/ status response = 403.
Proof.
  unfold unauthorized. rewrite orb_true_iff, !Nat.eqb_eq. tauto.
Qed.

Lemma unauthorized_false (response : Response) :
  unauthorized response = false <-> status response <> 401 /\ status response <> 403.
Proof.
  unfold unauthorized. rewrite orb_false_iff, !Nat.eqb_neq. tauto.
Qed.

Lemma requests_handleResponse (response : Response) (w : World) :
  requests (snd (handleResponse response w)) = requests w.
Proof.
  destruct (unauthorized response) eqn:H.
  - rewrite handleResponse_401_403 by exact H.
    unfold requests; simpl. rewrite omap_app; simpl. apply app_nil_r.
  - now rewrite handleResponse_other.
Qed.

(** *** The common shape of the fetching methods *)

Lemma fetch_and_handle_run u m h b (w : World) :
  let r := {| url := u; method := m; headers := h; body := b |} in
  fetch_and_handle u m h b w =
  match network (env w) (requests w ++ [r]) with
  | inl response => handleResponse response (emit (EvFetch r) w)
  | inr e => (Rejected e, emit (EvFetch r) w)
  end.
Proof.
  simpl. unfold fetch_and_handle, bind, fetch. rewrite requests_emit. simpl.
  now destruct (network _ _).
Qed.

Lemma requests_fetch_and_handle u m h b (w : World) :
  requests (snd (fetch_and_handle u m h b w)) =
  requests w ++ [{| url := u; method := m; headers := h; body := b |}].
Proof.
  rewrite fetch_and_handle_run. simpl.
  destruct (network _ _); [rewrite requests_handleResponse|simpl];
    now rewrite requests_emit.
Qed.

Lemma invoke_shape (c : ApiCall) (w : World) :
  is_mock c = false -> c <> Call_getCurrentUser ->
  exists u m b,
    invoke c w =
    fetch_and_handle u m
      (if sends_literal_headers c then json_headers else auth_headers w) b w.
Proof.
  destruct c; intros Hmock Hme; try discriminate; try congruence;
    eexists _, _, _; reflexivity.
Qed.

Lemma getCurrentUser_logged_out (w : World) :
  truthy (item_value (localStorage w !! "auth_token")) = false ->
  getCurrentUser w = (Resolved (VObj [("user", VNull)]), w).
Proof.
  intros H. unfold getCurrentUser, try_catch, bind, localStorage_getItem, gets.
  now rewrite H.
Qed.

Lemma getCurrentUser_shape (w : World) :
  truthy (item_value (localStorage w !! "auth_token")) = true ->
  getCurrentUser w =
  try_catch
    (fetch_and_handle (API_BASE_URL_of (env w) +:+ "/auth/me") (Some "GET")
       (auth_headers w) None)
    (fun error => bind (console_error "Error in getCurrentUser:" error)
                       (fun _ => throw error)) w.
Proof.
  intros H. unfold getCurrentUser, try_catch, bind, localStorage_getItem, gets.
  now rewrite H.
Qed.

(** *** Worlds that differ by a run of events *)

Lemma emit_extend (e : Event) (w : World) : emit e w = extend [e] w.
Proof. reflexivity. Qed.

Lemma extend_extend (l1 l2 : list Event) (w : World) :
  extend l2 (extend l1 w) = extend (l1 ++ l2) w.
Proof. unfold extend; simpl. now rewrite app_assoc. Qed.

Lemma extend_nil (w : World) : extend [] w = w.
Proof. destruct w; unfold extend; simpl. now rewrite app_nil_r. Qed.

Lemma requests_extend (l : list Event) (w : World) :
  requests (extend l w) = requests w ++ omap is_fetch l.
Proof. unfold requests, extend; simpl. apply omap_app. Qed.

Lemma logout_calls_extend (l : list Event) (w : World) :
  logout_calls (extend l w) = logout_calls w ++ omap is_force_logout l.
Proof. unfold logout_calls, extend; simpl. apply omap_app. Qed.

Lemma timeouts_extend (l : list Event) (w : World) :
  timeouts (extend l w) = timeouts w ++ omap is_timeout l.
Proof. unfold timeouts, extend; simpl. apply omap_app. Qed.

Lemma draws_extend (l : list Event) (w : World) :
  draws (extend l w) = draws w + length (omap is_random l).
Proof. unfold draws, extend; simpl. now rewrite omap_app, length_app. Qed.

Lemma clock_reads_extend (l : list Event) (w : World) :
  clock_reads (extend l w) = clock_reads w + length (omap is_now l).
Proof. unfold clock_reads, extend; simpl. now rewrite omap_app, length_app. Qed.

Lemma sleep_run (ms : Z) (w : World) :
  sleep ms w = (Resolved tt, extend [EvTimeout ms] w).
Proof. reflexivity. Qed.

Lemma Math_random_run (w : World) :
  Math_random w =
  (Resolved (random_tape (env w) (draws w)),
   extend [EvRandom (random_tape (env w) (draws w))] w).
Proof. reflexivity. Qed.

Lemma Date_now_run (w : World) :
  Date_now w =
  (Resolved (clock_tape (env w) (clock_reads w)),
   extend [EvNow (clock_tape (env w) (clock_reads w))] w).
Proof. reflexivity. Qed.

(** *** The mock methods *)

Lemma processPayment_run (paymentData : Value) (w : World) :
  let x := random_tape (env w) (draws w) in
  let t := clock_tape (env w) (clock_reads w) in
  let y := random_tape (env w) (S (draws w)) in
  processPayment paymentData w =
  if isSuccess x then
    (Resolved (payment_receipt t y),
     extend [EvTimeout 2000; EvRandom x; EvNow t; EvRandom y] w)
  else
    (Rejected (Error "Payment failed. Please try again."),
     extend [EvTimeout 2000; EvRandom x] w).
Proof.
  simpl. unfold processPayment, bind.
  rewrite sleep_run, Math_random_run, extend_extend, draws_extend. simpl.
  rewrite Nat.add_0_r.
  destruct (isSuccess _); [|reflexivity].
  unfold ret. rewrite !emit_extend, !extend_extend, !draws_extend, !clock_reads_extend.
  simpl. now rewrite !Nat.add_0_r, Nat.add_1_r.
Qed.

Lemma revenue_record_run (start_ms : Z) (i : nat) (w : World) :
  let tape := random_tape (env w) in
  revenue_record start_ms i w =
  (Resolved (revenue_entry start_ms i (tape (draws w)) (tape (S (draws w)))),
   extend [EvRandom (tape (draws w)); EvRandom (tape (S (draws w)))] w).
Proof.
  simpl. unfold revenue_record, bind.
  rewrite Math_random_run, Math_random_run, extend_extend, draws_extend.
  simpl. now rewrite Nat.add_1_r.
Qed.

Lemma Array_from_revenue (start_ms : Z) (n : nat) :
  forall (i : nat) (w : World),
    Array_from n i (revenue_record start_ms) w =
    (Resolved (revenue_data (random_tape (env w)) start_ms (draws w) i n),
     extend (revenue_draws (random_tape (env w)) (draws w) n) w).
Proof.
  induction n as [|n IH]; intros i w.
  - simpl. now rewrite extend_nil.
  - cbn [Array_from]. unfold bind at 1. rewrite revenue_record_run.
    unfold bind at 1. rewrite IH, extend_extend, draws_extend. simpl.
    now rewrite Nat.add_succ_r, Nat.add_succ_r, Nat.add_0_r.
Qed.

Lemma length_revenue_data tape start_ms (n : nat) :
  forall d i, length (revenue_data tape start_ms d i n) = n.
Proof. induction n; intros; simpl; [reflexivity | now rewrite IHn]. Qed.

Lemma lookup_revenue_data tape start_ms (n : nat) :
  forall d i j, j < n ->
    revenue_data tape start_ms d i n !! j =
    Some (revenue_entry start_ms (i + j) (tape (d + 2 * j)) (tape (S (d + 2 * j)))).
Proof.
  induction n as [|n IH]; intros d i j Hj; [lia|].
  destruct j as [|j]; cbn [revenue_data lookup list_lookup].
  - now rewrite Nat.mul_0_r, !Nat.add_0_r.
  - rewrite IH by lia.
    replace (S i + j) with (i + S j) by lia.
    now replace (S (S d) + 2 * j) with (d + 2 * S j) by lia.
Qed.

Lemma omap_revenue_draws {A} (f : Event -> option A) tape (n : nat) :
  (forall x, f (EvRandom x) = None) ->
  forall d, omap f (revenue_draws tape d n) = [].
Proof.
  intros Hf. induction n as [|n IH]; intros d; simpl; [reflexivity|].
  now rewrite !Hf, IH.
Qed.

(** [ceil_days] is the ceiling of the exact quotient. *)
Lemma ceil_days_spec (s e : Z) :
  (ms_per_day * (ceil_days s e - 1) < e - s <= ms_per_day * ceil_days s e)%Z.
Proof.
  unfold ceil_days.
  assert (Hd : (0 < ms_per_day)%Z) by reflexivity.
  pose proof (Z.div_mod (- (e - s)) ms_per_day ltac:(lia)) as Hdm.
  pose proof (Z.mod_pos_bound (- (e - s)) ms_per_day Hd) as Hm.
  nia.
Qed.

Lemma getRevenue_run (startDate endDate : string) (w : World) :
  getRevenue startDate endDate w =
  match Date_getTime endDate, Date_getTime startDate with
  | Some e, Some s =>
      let n := revenue_length s e in
      (Resolved (VObj [("data",
                        VArr (revenue_data (random_tape (env w)) s (draws w) 0 n))]),
       extend (EvTimeout 500 :: revenue_draws (random_tape (env w)) (draws w) n) w)
  | _, _ => (Resolved (VObj [("data", VArr [])]), extend [EvTimeout 500] w)
  end.
Proof.
  unfold getRevenue, bind. rewrite sleep_run.
  destruct (Date_getTime endDate) as [e|], (Date_getTime startDate) as [s|];
    try reflexivity.
  rewrite Array_from_revenue, extend_extend, draws_extend. simpl.
  now rewrite Nat.add_0_r.
Qed.

Lemma getRentalStatus_run (w : World) :
  exists data, getRentalStatus w =
    (Resolved (VObj [("data", VArr data)]), extend [EvTimeout 300] w) /\ length data = 5.
Proof. eexists. split; reflexivity. Qed.

Lemma getTopProducts_run (w : World) :
  exists data, getTopProducts w =
    (Resolved (VObj [("data", VArr data)]), extend [EvTimeout 400] w) /\ length data = 5.
Proof. eexists. split; reflexivity. Qed.

(** A mock method leaves the requests, the storage, the slot and the record
    of callback invocations alone. *)
Lemma mock_frame (c : ApiCall) (w : World) :
  is_mock c = true ->
  exists evs, snd (invoke c w) = extend evs w /\ omap is_fetch evs = [] /\
              omap is_force_logout evs = [].
Proof.
  destruct c; try discriminate; intros _; simpl.
  - rewrite processPayment_run.
    destruct (isSuccess _); eexists; split_and!; reflexivity.
  - rewrite getRevenue_run.
    destruct (Date_getTime endDate), (Date_getTime startDate);
      eexists; (split_and!; [reflexivity| |]); simpl;
      rewrite ?omap_revenue_draws; auto.
  - eexists; split_and!; reflexivity.
  - eexists; split_and!; reflexivity.
Qed.

(** *** Which requests a call issues, and what it does with the answer *)

Lemma drop_own_length {A} (l extra : list A) :
  drop (length l) (l ++ extra) = extra.
Proof. now rewrite drop_app_length. Qed.

Lemma new_requests_mock (c : ApiCall) (w : World) :
  is_mock c = true -> new_requests c w = [].
Proof.
  intros H. destruct (mock_frame c w H) as (evs & Hw & Hf & _).
  unfold new_requests. rewrite Hw, requests_extend, Hf. apply drop_own_length.
Qed.

Lemma new_requests_fetching (c : ApiCall) (w : World) :
  is_mock c = false -> c <> Call_getCurrentUser ->
  exists u m b,
    let h := if sends_literal_headers c then json_headers else auth_headers w in
    invoke c w = fetch_and_handle u m h b w /\
    new_requests c w = [{| url := u; method := m; headers := h; body := b |}].
Proof.
  intros Hmock Hme. destruct (invoke_shape c w Hmock Hme) as (u & m & b & H).
  exists u, m, b. simpl. split; [exact H|].
  unfold new_requests. rewrite H, requests_fetch_and_handle. apply drop_own_length.
Qed.

Lemma getCurrentUser_run (w : World) :
  truthy (item_value (localStorage w !! "auth_token")) = true ->
  getCurrentUser w =
  match network (env w) (requests w ++ [me_request w]) with
  | inl response =>
      match handleResponse response (emit (EvFetch (me_request w)) w) with
      | (Resolved v, w') => (Resolved v, w')
      | (Rejected e, w') =>
          (Rejected e, emit (EvConsoleError "Error in getCurrentUser:" e) w')
      end
  | inr e =>
      (Rejected e,
       emit (EvConsoleError "Error in getCurrentUser:" e)
            (emit (EvFetch (me_request w)) w))
  end.
Proof.
  intros H. rewrite getCurrentUser_shape by exact H.
  unfold try_catch. rewrite fetch_and_handle_run. simpl.
  fold (me_request w).
  destruct (network _ _) as [response|e]; [|reflexivity].
  now destruct (handleResponse _ _) as [[v|e] w'].
Qed.

Lemma new_requests_getCurrentUser (w : World) :
  new_requests Call_getCurrentUser w =
  if truthy (item_value (localStorage w !! "auth_token")) then [me_request w] else [].
Proof.
  unfold new_requests. simpl.
  destruct (truthy _) eqn:H.
  - rewrite getCurrentUser_run by exact H.
    assert (Hreq : forall o : Outcome Value * World,
               requests (snd (let '(x, w') := o in
                              match x with
                              | Resolved v => (Resolved v, w')
                              | Rejected e =>
                                  (Rejected e,
                                   emit (EvConsoleError "Error in getCurrentUser:" e) w')
                              end)) = requests (snd o)).
    { intros [[v|e] w']; simpl; [reflexivity|].
      rewrite requests_emit. apply app_nil_r. }
    destruct (network _ _) as [response|e].
    + rewrite Hreq, requests_handleResponse, requests_emit. apply drop_own_length.
    + simpl. rewrite !requests_emit. simpl. rewrite app_nil_r.
      apply drop_own_length.
  - rewrite getCurrentUser_logged_out by exact H. simpl.
    rewrite <- (app_nil_r (requests w)) at 2. apply drop_own_length.
Qed.

Lemma getCurrentUser_or_not (c : ApiCall) :
  c = Call_getCurrentUser \/ c <> Call_getCurrentUser.
Proof. destruct c; (now left) || (now right). Qed.

(** An answered call is [handleResponse] on the answer: same outcome, same
    session ([getCurrentUser] adds a console line when it rethrows). *)
Lemma invoke_answered (c : ApiCall) (w : World) (response : Response) :
  answered c w response ->
  exists r,
    new_requests c w = [r] /\
    fst (invoke c w) = fst (handleResponse response (emit (EvFetch r) w)) /\
    same_session (snd (invoke c w))
                 (snd (handleResponse response (emit (EvFetch r) w))).
Proof.
  intros (r & Hr & Hnet). exists r. split; [exact Hr|].
  destruct (is_mock c) eqn:Hmock.
  { rewrite new_requests_mock in Hr by exact Hmock. discriminate. }
  destruct (getCurrentUser_or_not c) as [->|Hme].
  - rewrite new_requests_getCurrentUser in Hr.
    destruct (truthy _) eqn:Htok; [|discriminate].
    injection Hr as <-. simpl. rewrite getCurrentUser_run by exact Htok.
    rewrite Hnet.
    destruct (handleResponse _ _) as [[v|e] w']; simpl; [now repeat split|].
    repeat split. unfold logout_calls, emit; simpl.
    rewrite omap_app. apply app_nil_r.
  - destruct (new_requests_fetching c w Hmock Hme) as (u & m & b & Hinv & Hnew).
    simpl in Hinv, Hnew. rewrite Hnew in Hr. injection Hr as <-.
    rewrite Hinv, fetch_and_handle_run. simpl. rewrite Hnet. now repeat split.
Qed.

(** *** The force-logout slot *)

Lemma setForceLogout_replaces (fn : Callback) (w : World) :
  setForceLogout fn w = (Resolved tt, set_forceLogoutFn fn w) /\
  forceLogoutFn (snd (setForceLogout fn w)) = fn /\
  localStorage (snd (setForceLogout fn w)) = localStorage w /\
  trace (snd (setForceLogout fn w)) = trace w.
Proof. now repeat split. Qed.

Lemma run_callback_Noop (e : Env) st : run_callback e Noop st = (st, None).
Proof. reflexivity. Qed.

(** *** Authorization failures *)

(** C1, amended. A response with status 401 or 403, whatever its body:
    [handleResponse] removes [auth_token] from the storage and then invokes
    the callback held by the slot at that moment (the no-op the module
    starts with, or the last one [setForceLogout] put there) exactly once;
    no request is issued. When the callback returns, as the no-op does,
    [handleResponse] and every method whose request was answered by such a
    response resolve with [undefined]; when the callback throws, they reject
    with what it threw. *)
Theorem unauthorized_response_forces_logout (response : Response) (w : World) :
  status response = 401 \/ status response = 403 ->
  (exists st thrown w',
     run_callback (env w) (forceLogoutFn w)
       (delete "auth_token" (localStorage w), forceLogoutFn w) = (st, thrown) /\
     handleResponse response w =
       (match thrown with
        | None => Resolved VUndefined
        | Some e => Rejected e
        end, w') /\
     (localStorage w', forceLogoutFn w') = st /\
     logout_calls w' = logout_calls w ++ [forceLogoutFn w] /\
     requests w' = requests w /\
     (forall c : ApiCall, answered c w response ->
        fst (invoke c w) =
          match thrown with
          | None => Resolved VUndefined
          | Some e => Rejected e
          end /\
        (localStorage (snd (invoke c w)), forceLogoutFn (snd (invoke c w))) = st /\
        logout_calls (snd (invoke c w)) = logout_calls w ++ [forceLogoutFn w])) /\
  (forceLogoutFn w = Noop ->
     fst (handleResponse response w) = Resolved VUndefined /\
     localStorage (snd (handleResponse response w)) !! "auth_token" = None) /\
  (forall fn : Callback,
     logout_calls (snd (handleResponse response (snd (setForceLogout fn w)))) =
     logout_calls w ++ [fn]).
Proof.
  intros Hst. apply unauthorized_true in Hst. split_and!.
  - destruct (run_callback (env w) (forceLogoutFn w)
                (delete "auth_token" (localStorage w), forceLogoutFn w))
      as [st thrown] eqn:Hrun.
    exists st, thrown. eexists. split; [reflexivity|].
    split; [rewrite handleResponse_401_403 by exact Hst; rewrite Hrun; reflexivity|].
    simpl. split_and!.
    + now destruct st.
    + unfold logout_calls; simpl. now rewrite omap_app.
    + unfold requests; simpl. rewrite omap_app. apply app_nil_r.
    + intros c Hc.
      destruct (invoke_answered c w response Hc) as (r & _ & Hfst & Hs).
      rewrite handleResponse_401_403 in Hfst, Hs by exact Hst.
      simpl in Hfst, Hs. rewrite Hrun in Hfst, Hs.
      destruct Hs as (Hls & Hfn & Hlog). simpl in *.
      split_and!.
      * exact Hfst.
      * rewrite Hls, Hfn. now destruct st.
      * rewrite Hlog. unfold logout_calls; simpl. rewrite !omap_app. simpl.
        now rewrite app_nil_r.
  - intros Hnoop. rewrite handleResponse_401_403 by exact Hst.
    rewrite Hnoop. simpl. split; [reflexivity | apply lookup_delete_eq].
  - intros fn. rewrite handleResponse_401_403 by exact Hst.
    unfold logout_calls; simpl. now rewrite omap_app.
Qed.

(** C10. A response whose status is neither 401 nor 403 leaves the world as
    it was, whether [handleResponse] resolves or throws: the stored token is
    the same and no callback has been invoked. *)
Theorem other_status_keeps_session (response : Response) (w : World) :
  status response <> 401 -> status response <> 403 ->
  snd (handleResponse response w) = w /\
  localStorage (snd (handleResponse response w)) !! "auth_token" =
    localStorage w !! "auth_token" /\
  forceLogoutFn (snd (handleResponse response w)) = forceLogoutFn w /\
  logout_calls (snd (handleResponse response w)) = logout_calls w.
Proof.
  intros H1 H2.
  assert (H : unauthorized response = false) by now apply unauthorized_false.
  rewrite handleResponse_other by exact H. now repeat split.
Qed.

(** *** Failures that are thrown *)


Lemma opt_get_absent (props : list (string * Value)) (key : string) :
  own_property props key = None -> opt_get (VObj props) key = VUndefined.
Proof. intros H. simpl. now rewrite H. Qed.

Lemma truthy_VStr (s : string) : s <> "" -> truthy (VStr s) = true.
Proof.
  intros H. simpl. destruct (String.eqb_spec s ""); [contradiction | reflexivity].
Qed.

(** C4, amended. A response outside 2xx, other than 401 and 403, whose body
    parses to [data]: a [message] field holding a non-empty string is the
    failure reason; when [message] is absent or falsy, an [error] field
    holding a non-empty string is; when both are absent or falsy the reason
    is [Unexpected error]. A truthy field that is not a string is reported
    through [new Error] of it. The calling method fails the same way. *)
Theorem error_reason_selection (response : Response) (data : Value) (w : World) :
  status response <> 401 -> status response <> 403 ->
  ok response = false ->
  json response = Some data ->
  (forall s, opt_get data "message" = VStr s -> s <> "" ->
     handleResponse response w = (Rejected (Error s), w)) /\
  (forall s, truthy (opt_get data "message") = false ->
     opt_get data "error" = VStr s -> s <> "" ->
     handleResponse response w = (Rejected (Error s), w)) /\
  (truthy (opt_get data "message") = false ->
   truthy (opt_get data "error") = false ->
   handleResponse response w = (Rejected (Error "Unexpected error"), w)) /\
  (truthy (opt_get data "message") = true ->
   handleResponse response w = (Rejected (new_Error (opt_get data "message")), w)) /\
  (truthy (opt_get data "message") = false ->
   truthy (opt_get data "error") = true ->
   handleResponse response w = (Rejected (new_Error (opt_get data "error")), w)) /\
  (forall c : ApiCall, answered c w response ->
     fst (invoke c w) = fst (handleResponse response w)).
Proof.
  intros H1 H2 Hok Hjson.
  assert (H : unauthorized response = false) by now apply unauthorized_false.
  rewrite handleResponse_other by exact H. rewrite Hjson, Hok.
  split_and!.
  - intros s Hm Hs. unfold js_or at 2. rewrite Hm, (truthy_VStr s Hs).
    unfold js_or. now rewrite (truthy_VStr s Hs).
  - intros s Hm He Hs. unfold js_or at 2. rewrite Hm, He.
    unfold js_or. now rewrite (truthy_VStr s Hs).
  - intros Hm He. unfold js_or at 2. rewrite Hm.
    unfold js_or. now rewrite He.
  - intros Hm. unfold js_or at 2. rewrite Hm. unfold js_or. now rewrite Hm.
  - intros Hm He. unfold js_or at 2. rewrite Hm. unfold js_or. now rewrite He.
  - intros c Hc. destruct (invoke_answered c w response Hc) as (r & _ & Hfst & _).
    rewrite Hfst, handleResponse_other by exact H. now rewrite Hjson, Hok.
Qed.

(** *** The Authorization header *)

Lemma new_requests_headers (c : ApiCall) (w : World) (r : Request) :
  In r (new_requests c w) ->
  headers r = if sends_literal_headers c then json_headers else auth_headers w.
Proof.
  intros Hin. destruct (is_mock c) eqn:Hmock.
  { rewrite new_requests_mock in Hin by exact Hmock. destruct Hin. }
  destruct (getCurrentUser_or_not c) as [->|Hme].
  - rewrite new_requests_getCurrentUser in Hin.
    destruct (truthy _); [|destruct Hin].
    destruct Hin as [<-|[]]. reflexivity.
  - destruct (new_requests_fetching c w Hmock Hme) as (u & m & b & _ & Hnew).
    simpl in Hnew. rewrite Hnew in Hin. destruct Hin as [<-|[]]. reflexivity.
Qed.

(** Every method with a [fetch] in its body issues exactly one request,
    [getCurrentUser] only when a non-empty token is stored. *)
Lemma new_requests_one (c : ApiCall) (w : World) :
  is_mock c = false ->
  (c = Call_getCurrentUser ->
   truthy (item_value (localStorage w !! "auth_token")) = true) ->
  exists r, new_requests c w = [r].
Proof.
  intros Hmock Htok. destruct (getCurrentUser_or_not c) as [->|Hme].
  - rewrite new_requests_getCurrentUser, Htok by reflexivity. eauto.
  - destruct (new_requests_fetching c w Hmock Hme) as (u & m & b & _ & Hnew).
    eauto.
Qed.

Lemma spread_authorization_token (tok : string) :
  tok <> "" ->
  spread_authorization (Some tok) = [("Authorization", "Bearer " +:+ tok)].
Proof.
  intros H. unfold spread_authorization, item_value.
  now rewrite (truthy_VStr tok H).
Qed.

(** C2, amended. For a request issued by any method other than
    [generateOTP], [verifyOTP], [signup], [signin], [checkAdmin] and
    [checkUser]: a non-empty token stored under [auth_token] travels as
    [Authorization: Bearer <token>] next to the content type, and with no
    token stored (or an empty one) the content type is the only header. The
    six methods named send the content type alone, whatever is stored. *)
Theorem authorization_header (c : ApiCall) (w : World) (r : Request) :
  In r (new_requests c w) ->
  (forall tok, sends_literal_headers c = false ->
     localStorage w !! "auth_token" = Some tok -> tok <> "" ->
     headers r = [("Content-Type", "application/json");
                  ("Authorization", "Bearer " +:+ tok)]) /\
  (localStorage w !! "auth_token" = None \/ localStorage w !! "auth_token" = Some "" ->
     headers r = [("Content-Type", "application/json")]) /\
  (sends_literal_headers c = true ->
     headers r = [("Content-Type", "application/json")]).
Proof.
  intros Hin. rewrite (new_requests_headers c w r Hin). split_and!.
  - intros tok -> Htok Hne. unfold auth_headers.
    now rewrite Htok, (spread_authorization_token tok Hne).
  - intros Hnone. destruct (sends_literal_headers c); [reflexivity|].
    unfold auth_headers. now destruct Hnone as [-> | ->].
  - now intros ->.
Qed.

(** C7. [updateRentalStatus("r1", "CONFIRMED")] issues one request: a [PUT]
    to [<base>/rental/r1/status] whose body is the JSON text of
    [{ status: "CONFIRMED" }] and whose headers are the content type plus,
    when a non-empty token is stored, the bearer authorization. *)
Theorem updateRentalStatus_request (w : World) :
  requests (snd (updateRentalStatus "r1" CONFIRMED w)) =
  requests w ++
  [{| url := API_BASE_URL_of (env w) +:+ "/rental/r1/status";
      method := Some "PUT";
      headers :=
        ("Content-Type", "application/json")
          :: match localStorage w !! "auth_token" with
             | Some tok =>
                 if String.eqb tok "" then []
                 else [("Authorization", "Bearer " +:+ tok)]
             | None => []
             end;
      body := Some ("{" +:+ dq +:+ "status" +:+ dq +:+ ":" +:+
                    dq +:+ "CONFIRMED" +:+ dq +:+ "}") |}].
Proof.
  change (updateRentalStatus "r1" CONFIRMED w) with
    (fetch_and_handle (API_BASE_URL_of (env w) +:+ "/rental/r1/status")
       (Some "PUT") (auth_headers w)
       (JSON_stringify (VObj [("status", VStr "CONFIRMED")])) w).
  rewrite requests_fetch_and_handle. unfold auth_headers, spread_authorization.
  destruct (localStorage w !! "auth_token") as [tok|]; [|reflexivity].
  simpl. now destruct (String.eqb tok "").
Qed.

(** C9. With nothing stored under [auth_token], [getCurrentUser] resolves
    with [{ user: null }] and the world is as it was: no request went out,
    nothing was thrown or logged. *)
Theorem getCurrentUser_without_token (w : World) :
  localStorage w !! "auth_token" = None ->
  getCurrentUser w = (Resolved (VObj [("user", VNull)]), w) /\
  new_requests Call_getCurrentUser w = [].
Proof.
  intros H. split.
  - apply getCurrentUser_logged_out. now rewrite H.
  - rewrite new_requests_getCurrentUser. now rewrite H.
Qed.

(** *** The simulated payment gateway *)

Lemma isSuccess_spec (x : Q) : isSuccess x = true <-> (one_tenth < x)%Q.
Proof.
  unfold isSuccess. rewrite negb_true_iff, <- not_true_iff_false, Qle_bool_iff.
  split; [apply Qnot_le_lt | apply Qlt_not_le].
Qed.

(** The draws that succeed fill an interval of length [1 - one_tenth], which
    is nine tenths up to the rounding of the literal. *)
Lemma success_interval_length :
  ((9 # 10) - (1 # 100000000000000000) < 1 - one_tenth)%Q /\
  (1 - one_tenth < 9 # 10)%Q.
Proof. split; reflexivity. Qed.

Lemma length_substring_le (s : string) :
  forall n m, String.length (String.substring n m s) <= m.
Proof.
  induction s as [|c s IH]; intros [|n] [|m]; simpl; try lia.
  - specialize (IH 0 m). lia.
  - apply IH.
  - apply IH.
Qed.

Lemma length_substr_le (start len : nat) (s : string) :
  String.length (substr start len s) <= len.
Proof. unfold substr. pose proof (length_substring_le s start (Nat.min len (String.length s - start))). lia. Qed.

Lemma is_digit_pretty_N_char (x : N) : is_digit (pretty_N_char x) = true.
Proof. unfold pretty_N_char. repeat case_match; reflexivity. Qed.

Lemma all_digits_pretty_N_go (x : N) :
  forall s, all_digits s = true -> all_digits (pretty_N_go x s) = true.
Proof.
  induction (N.lt_wf_0 x) as [x _ IH]. intros s Hs.
  destruct (decide (x = 0)%N) as [->|Hx].
  - now rewrite pretty_N_go_0.
  - rewrite pretty_N_go_step by lia. apply IH.
    + apply N.div_lt; lia.
    + simpl. now rewrite is_digit_pretty_N_char.
Qed.

Lemma all_digits_timestamp_str (t : Z) :
  (0 <= t)%Z -> all_digits (timestamp_str t) = true.
Proof.
  intros Ht. destruct t as [|p|p]; [reflexivity | | lia].
  unfold timestamp_str, pretty, pretty_Z, pretty, pretty_N. simpl.
  now apply all_digits_pretty_N_go.
Qed.

(** C5. [processPayment] waits 2000 ms and draws a number. When the draw
    exceeds 0.1 it resolves with a transaction identifier made of [TXN_], the
    clock reading in decimal (digits only, for a reading that is not
    negative), an underscore and at most nine characters of the base-36
    rendering of a second draw; otherwise it fails with
    [Payment failed. Please try again.]. Either way no request is issued. *)
Theorem processPayment_outcome (paymentData : Value) (w : World) :
  let x := random_tape (env w) (draws w) in
  let t := clock_tape (env w) (clock_reads w) in
  let y := random_tape (env w) (S (draws w)) in
  ((one_tenth < x)%Q ->
     exists rnd,
       fst (processPayment paymentData w) =
       Resolved (VObj [("success", VBool true);
                       ("transactionId",
                        VStr ("TXN_" +:+ timestamp_str t +:+ "_" +:+ rnd));
                       ("message", VStr "Payment processed successfully")]) /\
       rnd = substr 2 9 (toString36 y) /\
       String.length rnd <= 9 /\
       ((0 <= t)%Z -> all_digits (timestamp_str t) = true)) /\
  (~ (one_tenth < x)%Q ->
     fst (processPayment paymentData w) =
     Rejected (Error "Payment failed. Please try again.")) /\
  requests (snd (processPayment paymentData w)) = requests w /\
  new_requests (Call_processPayment paymentData) w = [] /\
  timeouts (snd (processPayment paymentData w)) = timeouts w ++ [2000%Z].
Proof.
  intros x t y. pose proof (processPayment_run paymentData w) as Hrun.
  simpl in Hrun. fold x t y in Hrun. split_and!.
  - intros Hx. apply isSuccess_spec in Hx. rewrite Hrun, Hx.
    eexists. split_and!;
      [reflexivity | reflexivity | apply length_substr_le
      | apply all_digits_timestamp_str].
  - intros Hx. rewrite <- isSuccess_spec in Hx.
    apply not_true_is_false in Hx. now rewrite Hrun, Hx.
  - rewrite Hrun. destruct (isSuccess x); simpl;
      rewrite requests_extend; apply app_nil_r.
  - now apply new_requests_mock.
  - rewrite Hrun. destruct (isSuccess x); simpl;
      now rewrite timeouts_extend.
Qed.

(** *** The report generators *)

Lemma revenue_length_exact (s e : Z) :
  (e - s <= 2 ^ 53)%Z -> revenue_length s e = Z.to_nat (ceil_days s e).
Proof.
  intros H. unfold revenue_length.
  now destruct (Z.leb_spec (e - s) (2 ^ 53)); [|lia].
Qed.

(** The record literal of [getRevenue], written out. *)
Lemma revenue_entry_literal (s : Z) (i : nat) (x y : Q) :
  revenue_entry s i x y =
  VObj [("date", VStr (iso_date (s + Z.of_nat i * 86400000)%Z));
        ("revenue", VNum (num_of_Z (floor_times x 5000 + 1000)));
        ("rentals", VNum (num_of_Z (floor_times y 20 + 5)))].
Proof.
  unfold revenue_entry.
  now replace (s + Z.of_nat i * 24 * 60 * 60 * 1000)%Z
    with (s + Z.of_nat i * 86400000)%Z by lia.
Qed.


(** *** The login form *)

(** C8. Submitting the form calls [preventDefault] and then [onLogin], and
    nothing else: no request is issued. The role handed to [onLogin] is
    [admin] exactly when the typed email contains [admin], [customer]
    otherwise, and the typed password plays no part. *)
Theorem login_role_from_email (st : LoginState) (w : World) :
  exists role,
    handleSubmit st w = (Resolved tt, extend [EvPreventDefault; EvOnLogin role] w) /\
    (role = admin <-> exists pre post, email st = pre +:+ "admin" +:+ post) /\
    (role = customer <-> ~ exists pre post, email st = pre +:+ "admin" +:+ post) /\
    requests (snd (handleSubmit st w)) = requests w /\
    (forall p, handleSubmit {| email := email st; password := p |} w =
               handleSubmit st w).
Proof.
  exists (if includes (email st) "admin" then admin else customer).
  assert (Hrun : forall st', handleSubmit st' w =
            (Resolved tt,
             extend [EvPreventDefault;
                     EvOnLogin (if includes (email st') "admin"
                                then admin else customer)] w)).
  { intros st'. unfold handleSubmit, bind, modify. simpl.
    now rewrite !emit_extend, extend_extend. }
  pose proof (includes_spec (email st) "admin") as Hspec.
  split_and!.
  - apply Hrun.
  - rewrite <- Hspec. now destruct (includes _ _).
  - rewrite <- Hspec. destruct (includes _ _); split; easy.
  - rewrite Hrun. simpl. rewrite requests_extend. apply app_nil_r.
  - intros p. now rewrite !Hrun.
Qed.

End Properties.

(** ** Further properties of the client *)

Section ClientProperties.
Context {P : Platform}.

Lemma truthy_item_false (item : option string) :
  truthy (item_value item) = false <-> item = None \/ item = Some "".
Proof.
  destruct item as [t|]; simpl.
  - rewrite negb_false_iff, String.eqb_eq. split.
    + intros ->. now right.
    + intros [H|H]; congruence.
  - split; [now left | reflexivity].
Qed.

Lemma ok_not_unauthorized (response : Response) :
  ok response = true -> unauthorized response = false.
Proof.
  unfold ok, unauthorized. rewrite andb_true_iff, orb_false_iff, !Nat.leb_le, !Nat.eqb_neq.
  lia.
Qed.

(** What a call does when the network fails it. *)
Lemma invoke_unanswered (c : ApiCall) (w : World) (r : Request) (e : Exn) :
  new_requests c w = [r] ->
  network (env w) (requests w ++ [r]) = inr e ->
  fst (invoke c w) = Rejected e /\ same_session (snd (invoke c w)) w.
Proof.
  intros Hr Hnet.
  destruct (is_mock c) eqn:Hmock.
  { rewrite new_requests_mock in Hr by exact Hmock. discriminate. }
  destruct (getCurrentUser_or_not c) as [->|Hme].
  - rewrite new_requests_getCurrentUser in Hr.
    destruct (truthy _) eqn:Htok; [|discriminate].
    injection Hr as <-. simpl. rewrite getCurrentUser_run by exact Htok.
    rewrite Hnet. simpl. repeat split.
    unfold logout_calls, emit; simpl. rewrite !omap_app. simpl.
    now rewrite !app_nil_r.
  - destruct (new_requests_fetching c w Hmock Hme) as (u & m & b & Hinv & Hnew).
    simpl in Hinv, Hnew. rewrite Hnew in Hr. injection Hr as <-.
    rewrite Hinv, fetch_and_handle_run. simpl. rewrite Hnet. simpl.
    repeat split. unfold logout_calls, emit; simpl. rewrite omap_app. simpl.
    now rewrite app_nil_r.
Qed.

Lemma same_session_emit (e : Request) (w : World) :
  same_session (emit (EvFetch e) w) w.
Proof.
  repeat split. unfold logout_calls, emit; simpl. rewrite omap_app. simpl.
  now rewrite app_nil_r.
Qed.

Lemma same_session_trans (w1 w2 w3 : World) :
  same_session w1 w2 -> same_session w2 w3 -> same_session w1 w3.
Proof. intros (?&?&?) (?&?&?). repeat split; congruence. Qed.

(** The three ways a call can go. *)
Lemma new_requests_cases (c : ApiCall) (w : World) :
  (new_requests c w = [] /\
   (is_mock c = true \/
    (c = Call_getCurrentUser /\
     truthy (item_value (localStorage w !! "auth_token")) = false))) \/
  (exists r, new_requests c w = [r] /\ is_mock c = false /\
     (c = Call_getCurrentUser ->
      truthy (item_value (localStorage w !! "auth_token")) = true)).
Proof.
  destruct (is_mock c) eqn:Hmock.
  { left. split; [now apply new_requests_mock | now left]. }
  destruct (getCurrentUser_or_not c) as [->|Hme].
  - rewrite new_requests_getCurrentUser.
    destruct (truthy _) eqn:Htok.
    + right. eexists. now repeat split.
    + left. split; [reflexivity | right; now split].
  - destruct (new_requests_fetching c w Hmock Hme) as (u & m & b & _ & Hnew).
    right. eexists. split; [exact Hnew|]. split; [reflexivity | contradiction].
Qed.

(** X1. No call issues more than one request. The calls that issue none are
    the four mock methods and [getCurrentUser] when no token, or an empty
    one, is stored; every other call issues exactly one. *)
Theorem one_request_per_call (c : ApiCall) (w : World) :
  length (new_requests c w) <= 1 /\
  (new_requests c w = [] <->
   is_mock c = true \/
   (c = Call_getCurrentUser /\
    (localStorage w !! "auth_token" = None \/
     localStorage w !! "auth_token" = Some ""))).
Proof.
  rewrite <- truthy_item_false.
  destruct (new_requests_cases c w) as [(Hnil & Hwhy) | (r & Hone & Hmock & Htok)].
  - rewrite Hnil. split; [simpl; lia | now split].
  - rewrite Hone. split; [simpl; lia|]. split; [discriminate|].
    intros [H | [Hc H]]; [congruence|].
    rewrite (Htok Hc) in H. discriminate.
Qed.

(** X2. When [fetch] itself rejects (the network is down), the method
    rejects with that very error; the stored token and the slot are as they
    were and no callback has been invoked. Nothing is retried. *)
Theorem network_failure_propagates (c : ApiCall) (w : World) (r : Request) (e : Exn) :
  new_requests c w = [r] ->
  network (env w) (requests w ++ [r]) = inr e ->
  fst (invoke c w) = Rejected e /\
  localStorage (snd (invoke c w)) = localStorage w /\
  forceLogoutFn (snd (invoke c w)) = forceLogoutFn w /\
  logout_calls (snd (invoke c w)) = logout_calls w /\
  requests (snd (invoke c w)) = requests w ++ [r].
Proof.
  intros Hr Hnet.
  destruct (invoke_unanswered c w r e Hr Hnet) as (Hfst & Hls & Hfn & Hlog).
  split_and!; try assumption.
  pose proof (f_equal (fun l => requests w ++ l) Hr) as Hreq. simpl in Hreq.
  rewrite <- Hreq. unfold new_requests.
  destruct (new_requests_cases c w) as [(Hnil & _) | (r' & Hone & Hmock & Htok)].
  { rewrite Hnil in Hr. discriminate. }
  clear Hreq. destruct (getCurrentUser_or_not c) as [->|Hme].
  - simpl. rewrite getCurrentUser_run by auto.
    rewrite new_requests_getCurrentUser, Htok in Hr by reflexivity.
    injection Hr as <-. rewrite Hnet. simpl. rewrite !requests_emit. simpl.
    now rewrite app_nil_r, drop_own_length.
  - destruct (new_requests_fetching c w Hmock Hme) as (u & m & b & Hinv & _).
    simpl in Hinv. now rewrite Hinv, requests_fetch_and_handle, drop_own_length.
Qed.

(** X3. A 2xx answer whose body parses to [data] makes the method resolve
    with exactly [data]; the stored token and the slot are as they were and
    no callback has been invoked. *)
Theorem success_returns_body (c : ApiCall) (w : World) (response : Response)
    (data : Value) :
  answered c w response ->
  ok response = true ->
  json response = Some data ->
  fst (invoke c w) = Resolved data /\
  localStorage (snd (invoke c w)) = localStorage w /\
  forceLogoutFn (snd (invoke c w)) = forceLogoutFn w /\
  logout_calls (snd (invoke c w)) = logout_calls w.
Proof.
  intros Hc Hok Hjson.
  destruct (invoke_answered c w response Hc) as (r & _ & Hfst & Hs).
  rewrite handleResponse_other in Hfst, Hs by now apply ok_not_unauthorized.
  rewrite Hjson, Hok in Hfst. simpl in Hfst, Hs.
  destruct (same_session_trans _ _ _ Hs (same_session_emit r w)) as (? & ? & ?).
  now split_and!.
Qed.

(** X4. [handleResponse] resolves in two cases only: the status is 401 or
    403 and the callback in the slot returns without throwing, or the status
    is 2xx and the body parses. In every other case it throws. *)
Theorem handleResponse_resolves_iff (response : Response) (w : World) :
  (exists v, fst (handleResponse response w) = Resolved v) <->
  ((status response = 401 \/ status response = 403) /\
   snd (run_callback (env w) (forceLogoutFn w)
          (delete "auth_token" (localStorage w), forceLogoutFn w)) = None) \/
  (ok response = true /\ json response <> None).
Proof.
  destruct (unauthorized response) eqn:Hun.
  - rewrite handleResponse_401_403 by exact Hun. simpl.
    assert (Hok : ok response = true -> False).
    { intros Hok. apply ok_not_unauthorized in Hok. congruence. }
    apply unauthorized_true in Hun.
    destruct (snd (run_callback _ _ _)) as [e|]; split.
    + intros [v Hv]. discriminate Hv.
    + intros [[_ H] | [H _]]; [discriminate H | tauto].
    + intros _. now left.
    + intros _. eauto.
  - rewrite handleResponse_other by exact Hun. simpl.
    apply unauthorized_false in Hun.
    destruct (json response) as [data|], (ok response); split;
      try (intros [v Hv]; discriminate Hv);
      try (intros _; eauto; right; now split);
      intros [[H _]|[H1 H2]]; try tauto; try discriminate; eauto.
Qed.

Lemma console_log_extend (l : list Event) (w : World) :
  console_log (extend l w) = console_log w ++ omap is_console_error l.
Proof. unfold console_log, extend; simpl. apply omap_app. Qed.

Lemma console_log_handleResponse (response : Response) (w : World) :
  console_log (snd (handleResponse response w)) = console_log w.
Proof.
  destruct (unauthorized response) eqn:H.
  - rewrite handleResponse_401_403 by exact H.
    unfold console_log; simpl. rewrite omap_app. apply app_nil_r.
  - now rewrite handleResponse_other.
Qed.

Lemma console_log_fetch_and_handle u m h b (w : World) :
  console_log (snd (fetch_and_handle u m h b w)) = console_log w.
Proof.
  rewrite fetch_and_handle_run. simpl.
  destruct (network _ _); [rewrite console_log_handleResponse|simpl];
    rewrite emit_extend, console_log_extend; apply app_nil_r.
Qed.

Lemma console_log_mock (c : ApiCall) (w : World) :
  is_mock c = true -> console_log (snd (invoke c w)) = console_log w.
Proof.
  destruct c; try discriminate; intros _; simpl.
  - rewrite processPayment_run.
    destruct (isSuccess _); simpl; rewrite console_log_extend; apply app_nil_r.
  - rewrite getRevenue_run.
    destruct (Date_getTime endDate), (Date_getTime startDate); simpl;
      rewrite console_log_extend; simpl;
      rewrite ?omap_revenue_draws by reflexivity; apply app_nil_r.
  - unfold console_log; simpl. rewrite omap_app. apply app_nil_r.
  - unfold console_log; simpl. rewrite omap_app. apply app_nil_r.
Qed.

Lemma console_log_other (c : ApiCall) (w : World) :
  c <> Call_getCurrentUser -> console_log (snd (invoke c w)) = console_log w.
Proof.
  intros Hme. destruct (is_mock c) eqn:Hmock; [now apply console_log_mock|].
  destruct (invoke_shape c w Hmock Hme) as (u & m & b & ->).
  apply console_log_fetch_and_handle.
Qed.

Lemma console_log_getCurrentUser (w : World) :
  console_log (snd (getCurrentUser w)) =
  console_log w ++
  match fst (getCurrentUser w) with
  | Rejected e => [("Error in getCurrentUser:", e)]
  | Resolved _ => []
  end.
Proof.
  destruct (truthy (item_value (localStorage w !! "auth_token"))) eqn:Htok.
  - rewrite getCurrentUser_run by exact Htok.
    destruct (network _ _) as [response|e].
    + pose proof (console_log_handleResponse response
                    (emit (EvFetch (me_request w)) w)) as Hlog.
      rewrite (emit_extend _ w), console_log_extend in Hlog. simpl in Hlog.
      rewrite app_nil_r in Hlog.
      destruct (handleResponse _ _) as [[v|e] w']; simpl in *.
      * now rewrite Hlog, app_nil_r.
      * rewrite emit_extend, console_log_extend. simpl. now rewrite Hlog.
    + simpl. rewrite !emit_extend, extend_extend, console_log_extend.
      reflexivity.
  - rewrite getCurrentUser_logged_out by exact Htok. simpl.
    now rewrite app_nil_r.
Qed.

(** X5. [getCurrentUser] writes one [console.error] line, carrying the error
    it is about to rethrow, exactly when it rejects, and none when it
    resolves. No other method writes to the console. *)
Theorem console_error_only_on_rethrow (c : ApiCall) (w : World) :
  console_log (snd (invoke c w)) =
  console_log w ++
  match c, fst (invoke c w) with
  | Call_getCurrentUser, Rejected e => [("Error in getCurrentUser:", e)]
  | _, _ => []
  end.
Proof.
  destruct c; cbv beta iota;
    try (rewrite app_nil_r; apply console_log_other; discriminate).
  apply console_log_getCurrentUser.
Qed.

(** What any call does to the session: nothing, or the teardown of
    [handleResponse]. *)
Lemma invoke_session (c : ApiCall) (w : World) :
  same_session (snd (invoke c w)) w \/
  ((localStorage (snd (invoke c w)), forceLogoutFn (snd (invoke c w))) =
     fst (run_callback (env w) (forceLogoutFn w)
            (delete "auth_token" (localStorage w), forceLogoutFn w)) /\
   logout_calls (snd (invoke c w)) = logout_calls w ++ [forceLogoutFn w]).
Proof.
  destruct (new_requests_cases c w) as [(_ & [Hmock | (-> & Htok)]) | (r & Hr & _)].
  - left. destruct (mock_frame c w Hmock) as (evs & -> & _ & Hlog).
    repeat split. now rewrite logout_calls_extend, Hlog, app_nil_r.
  - left. simpl. rewrite getCurrentUser_logged_out by exact Htok. now repeat split.
  - destruct (network (env w) (requests w ++ [r])) as [response|e] eqn:Hnet.
    + assert (Hc : answered c w response) by (exists r; now split).
      destruct (invoke_answered c w response Hc) as (r' & Hr' & _ & Hs).
      rewrite Hr in Hr'. injection Hr' as <-.
      destruct (unauthorized response) eqn:Hun.
      * right. rewrite handleResponse_401_403 in Hs by exact Hun.
        destruct Hs as (Hls & Hfn & Hlog). simpl in *.
        rewrite Hls, Hfn, Hlog.
        split; [now destruct (run_callback _ _ _) as [[ls fn] thrown]|].
        unfold logout_calls; simpl. rewrite !omap_app. simpl.
        now rewrite app_nil_r.
      * left. rewrite handleResponse_other in Hs by exact Hun. simpl in Hs.
        exact (same_session_trans _ _ _ Hs (same_session_emit r w)).
    + left. exact (proj2 (invoke_unanswered c w r e Hr Hnet)).
Qed.

(** X6. The client never writes to the storage. Whatever the call and the
    answer, while the slot holds the initial no-op every key other than
    [auth_token] keeps its value, [auth_token] keeps its value or is gone,
    and the slot still holds the no-op. *)
Theorem storage_only_loses_token (c : ApiCall) (w : World) :
  forceLogoutFn w = Noop ->
  forceLogoutFn (snd (invoke c w)) = Noop /\
  (forall k, k <> "auth_token" ->
     localStorage (snd (invoke c w)) !! k = localStorage w !! k) /\
  (localStorage (snd (invoke c w)) !! "auth_token" = localStorage w !! "auth_token" \/
   localStorage (snd (invoke c w)) !! "auth_token" = None).
Proof.
  intros Hnoop.
  destruct (invoke_session c w) as [(Hls & Hfn & _) | (Hst & _)].
  - rewrite Hls, Hfn. split_and!; auto.
  - rewrite Hnoop in Hst. simpl in Hst. injection Hst as Hls Hfn.
    rewrite Hls, Hfn. split_and!; [reflexivity | | right; apply lookup_delete_eq].
    intros k Hk. now apply lookup_delete_ne.
Qed.

(** The methods that fetch, with the path and the verb spelled out. *)
Lemma invoke_shape_full (c : ApiCall) (w : World) :
  is_mock c = false -> c <> Call_getCurrentUser ->
  exists path m h b,
    invoke c w = fetch_and_handle (API_BASE_URL_of (env w) +:+ path) m h b w /\
    String.prefix "/" path = true /\
    In (default "GET" m) ["GET"; "POST"; "PUT"; "DELETE"] /\
    (default "GET" m = "GET" -> b = None).
Proof.
  destruct c; intros Hmock Hme; try discriminate; try congruence;
    eexists _, _, _, _; (split; [reflexivity|]);
    (split; [reflexivity|]);
    (split; [simpl; tauto | simpl; intros H; (reflexivity || discriminate H)]).
Qed.

(** X7. Every request goes to the configured base URL followed by a path
    that starts with a slash, with one of the verbs GET, POST, PUT and
    DELETE, and a GET request never carries a body. *)
Theorem request_shape (c : ApiCall) (w : World) (r : Request) :
  In r (new_requests c w) ->
  (exists path, url r = API_BASE_URL_of (env w) +:+ path /\
                String.prefix "/" path = true) /\
  In (request_method r) ["GET"; "POST"; "PUT"; "DELETE"] /\
  (request_method r = "GET" -> body r = None).
Proof.
  intros Hin.
  destruct (new_requests_cases c w) as [(Hnil & _) | (r' & Hone & Hmock & Htok)].
  { rewrite Hnil in Hin. destruct Hin. }
  rewrite Hone in Hin. destruct Hin as [<-|[]].
  destruct (getCurrentUser_or_not c) as [->|Hme].
  - rewrite new_requests_getCurrentUser, Htok in Hone by reflexivity.
    injection Hone as <-. split_and!.
    + now exists "/auth/me".
    + simpl. tauto.
    + reflexivity.
  - destruct (invoke_shape_full c w Hmock Hme)
      as (path & m & h & b & Hinv & Hpath & Hverb & Hget).
    unfold new_requests in Hone.
    rewrite Hinv, requests_fetch_and_handle, drop_own_length in Hone.
    injection Hone as <-. split_and!; eauto.
Qed.

Lemma new_requests_fetch_and_handle (c : ApiCall) u m h b (w : World) :
  invoke c w = fetch_and_handle u m h b w ->
  new_requests c w = [{| url := u; method := m; headers := h; body := b |}].
Proof.
  intros H. unfold new_requests.
  now rewrite H, requests_fetch_and_handle, drop_own_length.
Qed.

(** X8. The three status updates, for every identifier and every status of
    the enumeration: one [PUT] to [<base>/<resource>/<id>/status], the
    identifier placed in the path as it is, with the JSON text of
    [{ status }] as body and the headers of [getAuthHeaders]. *)
Theorem status_update_requests (id : string) (w : World) :
  (forall status : RentalStatus,
     new_requests (Call_updateRentalStatus id status) w =
     [{| url := API_BASE_URL_of (env w) +:+ "/rental/" +:+ id +:+ "/status";
         method := Some "PUT"; headers := auth_headers w;
         body := Some (status_body (RentalStatus_str status)) |}]) /\
  (forall status : InvoiceStatus,
     new_requests (Call_updateInvoiceStatus id status) w =
     [{| url := API_BASE_URL_of (env w) +:+ "/invoice/" +:+ id +:+ "/status";
         method := Some "PUT"; headers := auth_headers w;
         body := Some (status_body (InvoiceStatus_str status)) |}]) /\
  (forall status : PaymentStatus,
     new_requests (Call_updatePaymentStatus id status) w =
     [{| url := API_BASE_URL_of (env w) +:+ "/payment/" +:+ id +:+ "/status";
         method := Some "PUT"; headers := auth_headers w;
         body := Some (status_body (PaymentStatus_str status)) |}]).
Proof.
  split_and!; intros status; apply new_requests_fetch_and_handle;
    destruct status; reflexivity.
Qed.

Lemma last_nonempty {A} (l : list A) (x d1 d2 : A) :
  List.last (x :: l) d1 = List.last (x :: l) d2.
Proof.
  revert x. induction l as [|y l IH]; intros x; [reflexivity|].
  change (List.last (y :: l) d1 = List.last (y :: l) d2). apply IH.
Qed.

Lemma register_all_run (fns : list Callback) :
  forall w, register_all fns w =
            (Resolved tt, set_forceLogoutFn (List.last fns (forceLogoutFn w)) w).
Proof.
  induction fns as [|fn rest IH]; intros w.
  - now destruct w.
  - cbn [register_all]. unfold bind. simpl. rewrite IH.
    unfold set_forceLogoutFn; simpl. do 2 f_equal.
    destruct rest as [|fn' rest]; [reflexivity|].
    change (List.last (fn :: fn' :: rest) (forceLogoutFn w))
      with (List.last (fn' :: rest) (forceLogoutFn w)).
    apply last_nonempty.
Qed.

(** X9. Registration overwrites: after any number of [setForceLogout] calls,
    a 401 or 403 invokes the callback registered last, once, and none of the
    earlier ones. Registering invokes nothing. *)
Theorem last_registration_wins (fns : list Callback) (fn : Callback)
    (response : Response) (w : World) :
  status response = 401 \/ status response = 403 ->
  logout_calls (snd (register_all (fns ++ [fn]) w)) = logout_calls w /\
  logout_calls (snd (handleResponse response (snd (register_all (fns ++ [fn]) w)))) =
  logout_calls w ++ [fn].
Proof.
  intros Hst. apply unauthorized_true in Hst.
  rewrite register_all_run, last_last. simpl. split; [reflexivity|].
  rewrite handleResponse_401_403 by exact Hst.
  unfold logout_calls; simpl. now rewrite omap_app.
Qed.

(** X10. After a 401 or 403 handled while the slot holds the initial no-op,
    the client is logged out for good: [getCurrentUser] resolves with
    [{ user: null }] without a request, and every request issued from then
    on carries the content type only. *)
Theorem after_teardown_no_token (response : Response) (w : World) :
  status response = 401 \/ status response = 403 ->
  forceLogoutFn w = Noop ->
  let w1 := snd (handleResponse response w) in
  getCurrentUser w1 = (Resolved (VObj [("user", VNull)]), w1) /\
  (forall c r, In r (new_requests c w1) ->
     headers r = [("Content-Type", "application/json")]).
Proof.
  intros Hst Hnoop w1. apply unauthorized_true in Hst.
  assert (Htok : localStorage w1 !! "auth_token" = None).
  { unfold w1. rewrite handleResponse_401_403 by exact Hst. simpl.
    rewrite Hnoop. simpl. apply lookup_delete_eq. }
  split.
  - apply getCurrentUser_logged_out. now rewrite Htok.
  - intros c r Hin. rewrite (new_requests_headers c w1 r Hin).
    destruct (sends_literal_headers c); [reflexivity|].
    unfold auth_headers. now rewrite Htok.
Qed.

(** X11. A mock method awaits exactly one timer, of 2000, 500, 300 and 400
    ms for [processPayment], [getRevenue], [getRentalStatus] and
    [getTopProducts], and stays clear of the session: the storage and the
    slot are as they were and no callback has been invoked. *)
Theorem mock_methods_leave_session (c : ApiCall) (w : World) :
  is_mock c = true ->
  localStorage (snd (invoke c w)) = localStorage w /\
  forceLogoutFn (snd (invoke c w)) = forceLogoutFn w /\
  logout_calls (snd (invoke c w)) = logout_calls w /\
  timeouts (snd (invoke c w)) = timeouts w ++ [mock_delay c].
Proof.
  intros Hmock. destruct (mock_frame c w Hmock) as (evs & Hw & _ & Hlog).
  split_and!; try (rewrite Hw; reflexivity).
  - now rewrite Hw, logout_calls_extend, Hlog, app_nil_r.
  - clear Hw Hlog evs. destruct c; try discriminate; simpl.
    + rewrite processPayment_run.
      destruct (isSuccess _); simpl; now rewrite timeouts_extend.
    + rewrite getRevenue_run.
      destruct (Date_getTime endDate), (Date_getTime startDate); simpl;
        rewrite timeouts_extend; simpl;
        now rewrite ?omap_revenue_draws by reflexivity.
    + unfold timeouts; simpl. now rewrite omap_app.
    + unfold timeouts; simpl. now rewrite omap_app.
Qed.

(** X19. [processPayment] looks neither at the payment data nor at the
    session: two invocations that meet the same random draws and the same
    clock reading have the same outcome, whatever amount, method or card
    they were given and whether or not a token is stored. *)
Theorem processPayment_ignores_input (pd1 pd2 : Value) (w1 w2 : World) :
  random_tape (env w1) (draws w1) = random_tape (env w2) (draws w2) ->
  random_tape (env w1) (S (draws w1)) = random_tape (env w2) (S (draws w2)) ->
  clock_tape (env w1) (clock_reads w1) = clock_tape (env w2) (clock_reads w2) ->
  fst (processPayment pd1 w1) = fst (processPayment pd2 w2).
Proof.
  intros Hx Hy Ht. rewrite !processPayment_run. simpl.
  rewrite Hx, Hy, Ht. now destruct (isSuccess _).
Qed.

(** X12. [getRevenue] resolves with an empty [data] array, without drawing a
    random number, when either date does not parse or when the end date is
    not after the start date. *)
Theorem getRevenue_empty (startDate endDate : string) (w : World) :
  Date_getTime startDate = None \/ Date_getTime endDate = None \/
  (exists s e, Date_getTime startDate = Some s /\ Date_getTime endDate = Some e /\
               (e <= s)%Z) ->
  getRevenue startDate endDate w =
  (Resolved (VObj [("data", VArr [])]), extend [EvTimeout 500] w).
Proof.
  intros H. rewrite getRevenue_run.
  destruct H as [-> | [-> | (s & e & -> & -> & Hle)]].
  - now destruct (Date_getTime endDate).
  - reflexivity.
  - assert (Hn : revenue_length s e = 0).
    { rewrite revenue_length_exact by lia.
      pose proof (ceil_days_spec s e). unfold ms_per_day in *. lia. }
    simpl. now rewrite Hn.
Qed.

(** X13. For two valid dates, the end after the start and no further apart
    than the exact range of double arithmetic, the records of [getRevenue]
    tile the period: there is at least one; record [i] carries the ISO date
    of the instant [i] days after the start, an instant before the end, with
    a revenue and a rental count computed from two draws of its own; the
    day after the last record is at or past the end; two draws are consumed
    per record. *)
Theorem getRevenue_covers_period (startDate endDate : string) (s e : Z) (w : World) :
  Date_getTime startDate = Some s ->
  Date_getTime endDate = Some e ->
  (s < e)%Z -> (e - s <= 2 ^ 53)%Z ->
  exists data,
    fst (getRevenue startDate endDate w) = Resolved (VObj [("data", VArr data)]) /\
    1 <= length data /\
    (forall i, i < length data ->
       (s <= s + Z.of_nat i * 86400000 < e)%Z /\
       data !! i =
       Some (VObj
         [("date", VStr (iso_date (s + Z.of_nat i * 86400000)%Z));
          ("revenue",
           VNum (num_of_Z
             (floor_times (random_tape (env w) (draws w + 2 * i)) 5000 + 1000)));
          ("rentals",
           VNum (num_of_Z
             (floor_times (random_tape (env w) (S (draws w + 2 * i))) 20 + 5)))])) /\
    (e <= s + Z.of_nat (length data) * 86400000)%Z /\
    draws (snd (getRevenue startDate endDate w)) = draws w + 2 * length data.
Proof.
  intros Hs He Hlt Hb. rewrite getRevenue_run, Hs, He. simpl.
  rewrite revenue_length_exact by exact Hb.
  eexists. split; [reflexivity|].
  rewrite length_revenue_data.
  pose proof (ceil_days_spec s e) as Hc. unfold ms_per_day in Hc.
  assert (Hd : (1000 * 60 * 60 * 24 = 86400000)%Z) by reflexivity.
  rewrite Hd in Hc.
  assert (Hpos : (1 <= ceil_days s e)%Z) by nia.
  split_and!.
  - lia.
  - intros i Hi. split; [nia|].
    rewrite lookup_revenue_data by exact Hi. now rewrite revenue_entry_literal.
  - rewrite Z2Nat.id by lia. lia.
  - rewrite draws_extend. simpl.
    assert (Hlen : forall n d,
               length (omap is_random (revenue_draws (random_tape (env w)) d n))
               = 2 * n).
    { induction n as [|n IH]; intros d; simpl; [reflexivity|].
      rewrite IH. lia. }
    now rewrite Hlen.
Qed.

(** X14. In [getAllProducts] a page parameter that is absent or falsy (zero
    is) leaves no trace in the query: without parameters, or with both
    falsy, the request goes to [<base>/product?]; [skip] precedes [take]
    when both are sent. *)
Theorem getAllProducts_query (params : option PageParams) (w : World) :
  (forall a b,
     params ≫= skip = Some a -> params ≫= take = Some b ->
     num_truthy a = true -> num_truthy b = true ->
     new_requests (Call_getAllProducts params) w =
     [{| url := API_BASE_URL_of (env w) +:+ "/product?" +:+
                ("skip=" +:+ form_urlencode (num_to_string a)) +:+ "&" +:+
                ("take=" +:+ form_urlencode (num_to_string b));
         method := None; headers := auth_headers w; body := None |}]) /\
  ((params ≫= skip = None \/ exists a, params ≫= skip = Some a /\ num_truthy a = false) ->
   (params ≫= take = None \/ exists b, params ≫= take = Some b /\ num_truthy b = false) ->
   new_requests (Call_getAllProducts params) w =
   [{| url := API_BASE_URL_of (env w) +:+ "/product?";
       method := None; headers := auth_headers w; body := None |}]).
Proof.
  split.
  - intros a b Ha Hb Hta Htb. apply new_requests_fetch_and_handle.
    simpl. unfold getAllProducts. rewrite Ha, Hb. simpl. rewrite Hta, Htb.
    reflexivity.
  - intros Hs Ht. apply new_requests_fetch_and_handle.
    simpl. unfold getAllProducts.
    assert (Hskip : append_param "skip" (params ≫= skip) = []).
    { destruct Hs as [-> | (a & -> & Ha)]; simpl; [reflexivity | now rewrite Ha]. }
    assert (Htake : append_param "take" (params ≫= take) = []).
    { destruct Ht as [-> | (b & -> & Hb)]; simpl; [reflexivity | now rewrite Hb]. }
    rewrite Hskip, Htake. reflexivity.
Qed.

(** X15. The login form, mounted in [App]: whatever the email and the
    password, a submit leaves [App] authenticated, on the view it was on,
    with the role [admin] exactly when the email contains [admin]; a
    customer gets the customer portal and no notification panel. *)
Theorem submit_always_authenticates (login : LoginState) (st : AppState) (w : World) :
  let roles := drop (length (onLogin_calls w))
                    (onLogin_calls (snd (handleSubmit login w))) in
  let st' := deliver roles st in
  isAuthenticated st' = true /\
  currentView st' = currentView st /\
  (userRole st' = admin <-> exists pre post, email login = pre +:+ "admin" +:+ post) /\
  (userRole st' = customer -> render st' = MainScreen CustomerPortal false).
Proof.
  assert (Hroles :
    drop (length (onLogin_calls w)) (onLogin_calls (snd (handleSubmit login w)))
    = [if includes (email login) "admin" then admin else customer]).
  { unfold handleSubmit, bind, modify, onLogin_calls. simpl.
    rewrite <- app_assoc, omap_app. simpl. apply drop_own_length. }
  cbv zeta. rewrite Hroles. simpl.
  pose proof (includes_spec (email login) "admin") as Hspec.
  split_and!; try reflexivity.
  - rewrite <- Hspec. now destruct (includes _ _).
  - unfold render, renderContent. simpl. now intros ->.
Qed.

End ClientProperties.

(** ** Properties of the application shell *)

Lemma offered_LoginScreen (st : AppState) :
  render st = LoginScreen <-> isAuthenticated st = false /\ showSignup st = false.
Proof.
  unfold render. destruct (isAuthenticated st), (showSignup st); simpl;
    split; try tauto; try discriminate; intros [? ?]; discriminate.
Qed.

(** X16. In every state [App] can reach, being authenticated implies that
    the signup flag is off, so logging out always lands on the login form,
    never on the signup form. *)
Theorem logout_shows_login (st : AppState) :
  reachable st ->
  isAuthenticated st = true ->
  showSignup st = false /\ render (dispatch OnLogout st) = LoginScreen.
Proof.
  intros Hreach.
  assert (Hinv : isAuthenticated st = true -> showSignup st = false).
  { induction Hreach as [|st a Hreach IH Hoff]; [discriminate|].
    unfold render in Hoff.
    destruct a, (isAuthenticated st) eqn:Hauth, (showSignup st) eqn:Hsign;
      simpl in *; rewrite ?Hauth, ?Hsign; try discriminate; auto;
      intros; discriminate. }
  intros Hauth. split; [auto|].
  apply offered_LoginScreen. simpl. auto.
Qed.

(** X17. The only callback that turns an unauthenticated [App] into an
    authenticated one is [onLogin], and only the login form holds it: the
    signup form cannot authenticate, its one callback leads to the login
    form. The only callback that ends a session is [onLogout]. *)
Theorem authentication_gate (st : AppState) (a : AppAction) :
  offered (render st) a = true ->
  (isAuthenticated st = false -> isAuthenticated (dispatch a st) = true ->
     render st = LoginScreen /\ exists role, a = OnLogin role) /\
  (render st = SignupScreen ->
     a = OnShowLogin /\ render (dispatch a st) = LoginScreen) /\
  (isAuthenticated st = true -> isAuthenticated (dispatch a st) = false ->
     a = OnLogout).
Proof.
  unfold render.
  destruct a, (isAuthenticated st) eqn:Hauth, (showSignup st) eqn:Hsign;
    simpl; rewrite ?Hauth, ?Hsign; simpl; try discriminate; intros _; split_and!;
    try discriminate; try (intros; discriminate); eauto.
Qed.

(** X18. Roles do not confine: from a customer session, the callbacks that
    the navigation bar holds reach every component [renderContent] can
    return, the admin ones included. *)
Theorem customer_reaches_every_content (content : Content) :
  exists st,
    reachable st /\ render st = MainScreen content (match content with
                                                    | CustomerPortal => false
                                                    | _ => true
                                                    end) /\
    exists view role,
      st = dispatch (SetUserRole role)
             (dispatch (SetCurrentView view) (dispatch (OnLogin customer) App_initial)).
Proof.
  assert (Hpath : forall view role,
            reachable (dispatch (SetUserRole role)
                         (dispatch (SetCurrentView view)
                            (dispatch (OnLogin customer) App_initial)))).
  { intros view role. repeat (apply reachable_step; [|reflexivity]).
    apply reachable_initial. }
  destruct content.
  - eexists. split; [apply (Hpath "dashboard" admin)|]. split; [reflexivity|eauto].
  - eexists. split; [apply (Hpath "products" admin)|]. split; [reflexivity|eauto].
  - eexists. split; [apply (Hpath "orders" admin)|]. split; [reflexivity|eauto].
  - eexists. split; [apply (Hpath "reports" admin)|]. split; [reflexivity|eauto].
  - eexists. split; [apply (Hpath "pricing" admin)|]. split; [reflexivity|eauto].
  - eexists. split; [apply (Hpath "payments" admin)|]. split; [reflexivity|eauto].
  - eexists. split; [apply (Hpath "dashboard" customer)|]. split; [reflexivity|eauto].
Qed.

(** ** The properties at work on the sample worlds *)

Import Sample.

Lemma expired_getAllRentals_answered :
  answered Call_getAllRentals expired unauthorized_unparsable.
Proof. exists rentals_request. split; reflexivity. Qed.

Lemma unauthorized_response_forces_logout_witness :
  (status unauthorized_unparsable = 401 \/ status unauthorized_unparsable = 403) /\
  fst (handleResponse unauthorized_unparsable expired) = Resolved VUndefined /\
  logout_calls (snd (handleResponse unauthorized_unparsable expired)) = [Handler 1] /\
  localStorage (snd (handleResponse unauthorized_unparsable expired)) !! "auth_token"
    = None /\
  fst (invoke Call_getAllRentals expired) = Resolved VUndefined.
Proof.
  split; [left; reflexivity|].
  destruct (unauthorized_response_forces_logout unauthorized_unparsable expired
              (or_introl eq_refl))
    as [(st & thrown & w' & Hcb & Hrun & Hst & Hlog & _ & Hcall) _].
  assert (Hcb' : run_callback (env expired) (forceLogoutFn expired)
                   (delete "auth_token" (localStorage expired), forceLogoutFn expired)
                 = ((delete "auth_token" (localStorage expired), Handler 1), None))
    by reflexivity.
  rewrite Hcb' in Hcb. injection Hcb as <- <-.
  destruct (Hcall Call_getAllRentals expired_getAllRentals_answered) as (Hinv & _).
  rewrite Hrun, Hinv. simpl. rewrite Hlog.
  injection Hst as Hls _. rewrite Hls.
  split; [reflexivity|]. split; [reflexivity|]. split; reflexivity.
Defined.

Lemma expired_faulty_getAllRentals_answered :
  answered Call_getAllRentals expired_faulty unauthorized_unparsable.
Proof. exists rentals_request. split; reflexivity. Qed.

(** As stated for every registered callback, C1 fails when the callback
    throws: the token is removed, the callback is invoked once, and
    [handleResponse] and the calling method reject. *)
Lemma throwing_callback_rejects :
  status unauthorized_unparsable = 401 /\
  forceLogoutFn expired_faulty = Handler 1 /\
  run_callback (env expired_faulty) (Handler 1)
    (delete "auth_token" (localStorage expired_faulty), Handler 1)
  = ((delete "auth_token" (localStorage expired_faulty), Handler 1),
     Some (Error "router is gone")) /\
  fst (handleResponse unauthorized_unparsable expired_faulty)
    = Rejected (Error "router is gone") /\
  fst (handleResponse unauthorized_unparsable expired_faulty) <> Resolved VUndefined /\
  answered Call_getAllRentals expired_faulty unauthorized_unparsable /\
  fst (invoke Call_getAllRentals expired_faulty) = Rejected (Error "router is gone") /\
  fst (invoke Call_getAllRentals expired_faulty) <> Resolved VUndefined.
Proof.
  split; [reflexivity|]. split; [reflexivity|]. split; [reflexivity|].
  split; [reflexivity|]. split; [discriminate|].
  split; [exact expired_faulty_getAllRentals_answered|].
  split; [reflexivity | discriminate].
Qed.

Lemma other_status_keeps_session_witness :
  (status failed_with_error <> 401 /\ status failed_with_error <> 403) /\
  snd (handleResponse failed_with_error healthy) = healthy /\
  localStorage (snd (handleResponse failed_with_error healthy)) !! "auth_token"
    = Some "abc".
Proof.
  assert (H1 : status failed_with_error <> 401) by discriminate.
  assert (H3 : status failed_with_error <> 403) by discriminate.
  destruct (other_status_keeps_session failed_with_error healthy H1 H3)
    as (Hw & Htok & _).
  split; [split; [exact H1 | exact H3]|].
  split; [exact Hw|].
  rewrite Htok. reflexivity.
Defined.



Lemma error_reason_selection_witness :
  (status failed_with_message <> 401 /\ status failed_with_message <> 403 /\
   ok failed_with_message = false /\
   json failed_with_message = Some (VObj [("message", VStr "Product is booked")])) /\
  handleResponse failed_with_message healthy =
  (Rejected (Error "Product is booked"), healthy).
Proof.
  assert (H1 : status failed_with_message <> 401) by discriminate.
  assert (H3 : status failed_with_message <> 403) by discriminate.
  split; [split; [exact H1 | split; [exact H3 | split; reflexivity]]|].
  destruct (error_reason_selection failed_with_message _ healthy H1 H3 eq_refl eq_refl)
    as (Hmsg & _).
  apply Hmsg; [reflexivity | discriminate].
Defined.

(** As stated, C4 fails on a body without [message] that has an [error]
    field: the reason is that field, not the fallback. *)
Lemma error_field_is_the_reason :
  ok failed_with_error = false /\
  status failed_with_error <> 401 /\ status failed_with_error <> 403 /\
  own_property [("error", VStr "boom")] "message" = None /\
  fst (handleResponse failed_with_error healthy) = Rejected (Error "boom") /\
  fst (handleResponse failed_with_error healthy)
    <> Rejected (Error "Unexpected error").
Proof. repeat split; discriminate. Qed.

Lemma authorization_header_witness :
  In rentals_request (new_requests Call_getAllRentals healthy) /\
  headers rentals_request =
  [("Content-Type", "application/json"); ("Authorization", "Bearer abc")].
Proof.
  assert (Hin : In rentals_request (new_requests Call_getAllRentals healthy))
    by (left; reflexivity).
  split; [exact Hin|].
  destruct (authorization_header Call_getAllRentals healthy rentals_request Hin)
    as (Htok & _).
  apply (Htok "abc"); [reflexivity | reflexivity | discriminate].
Defined.

(** As stated for every method, C2 fails on [signin]: a token is stored and
    the request carries no Authorization header. *)
Lemma signin_sends_no_token :
  localStorage healthy !! "auth_token" = Some "abc" /\
  exists r,
    new_requests (Call_signin credentials) healthy = [r] /\
    url r = "http://localhost:5000/api/auth/signin" /\
    headers r = [("Content-Type", "application/json")] /\
    ~ In ("Authorization", "Bearer abc") (headers r).
Proof.
  split; [reflexivity|]. eexists. split; [reflexivity|].
  repeat split. intros [H|[]]. discriminate.
Qed.

Lemma getCurrentUser_without_token_witness :
  localStorage logged_out !! "auth_token" = None /\
  getCurrentUser logged_out = (Resolved (VObj [("user", VNull)]), logged_out).
Proof.
  split; [reflexivity|].
  exact (proj1 (getCurrentUser_without_token logged_out eq_refl)).
Defined.

Lemma processPayment_outcome_witness :
  (one_tenth < random_tape (env healthy) (draws healthy))%Q /\
  (exists rnd,
     fst (processPayment VNull healthy) =
     Resolved (VObj [("success", VBool true);
                     ("transactionId", VStr ("TXN_1700000000000_" +:+ rnd));
                     ("message", VStr "Payment processed successfully")]) /\
     String.length rnd <= 9) /\
  ~ (one_tenth < random_tape (env unlucky) (draws unlucky))%Q /\
  fst (processPayment VNull unlucky) =
  Rejected (Error "Payment failed. Please try again.").
Proof.
  assert (Hhi : (one_tenth < random_tape (env healthy) (draws healthy))%Q)
    by reflexivity.
  assert (Hlo : ~ (one_tenth < random_tape (env unlucky) (draws unlucky))%Q)
    by (intros H; discriminate H).
  destruct (processPayment_outcome VNull healthy) as (Hok & _).
  destruct (processPayment_outcome VNull unlucky) as (_ & Hfail & _).
  destruct (Hok Hhi) as (rnd & Hres & _ & Hlen & _).
  split_and!; [exact Hhi | | exact Hlo | exact (Hfail Hlo)].
  exists rnd. split; [exact Hres | exact Hlen].
Defined.


Example login_as_admin :
  handleSubmit {| email := "sysadmin@rentflow.io"; password := "" |} logged_out =
  (Resolved tt, extend [EvPreventDefault; EvOnLogin admin] logged_out).
Proof. reflexivity. Qed.

Example login_as_customer :
  handleSubmit {| email := "Admin@rentflow.io"; password := "hunter2" |} logged_out =
  (Resolved tt, extend [EvPreventDefault; EvOnLogin customer] logged_out).
Proof. reflexivity. Qed.

(** *** The further properties on the sample worlds *)

Lemma network_failure_propagates_witness :
  new_requests Call_getAllRentals unlucky = [anonymous_rentals_request] /\
  network (env unlucky) (requests unlucky ++ [anonymous_rentals_request])
    = inr (TypeError "Failed to fetch") /\
  fst (invoke Call_getAllRentals unlucky) = Rejected (TypeError "Failed to fetch").
Proof.
  assert (Hr : new_requests Call_getAllRentals unlucky = [anonymous_rentals_request])
    by reflexivity.
  split; [exact Hr|]. split; [reflexivity|].
  exact (proj1 (network_failure_propagates Call_getAllRentals unlucky
                  anonymous_rentals_request _ Hr eq_refl)).
Defined.

Lemma healthy_getAllRentals_answered : answered Call_getAllRentals healthy ok_empty.
Proof. exists rentals_request. split; reflexivity. Qed.

Lemma success_returns_body_witness :
  answered Call_getAllRentals healthy ok_empty /\
  ok ok_empty = true /\ json ok_empty = Some (VObj []) /\
  fst (invoke Call_getAllRentals healthy) = Resolved (VObj []).
Proof.
  split; [exact healthy_getAllRentals_answered|].
  split; [reflexivity|]. split; [reflexivity|].
  exact (proj1 (success_returns_body Call_getAllRentals healthy ok_empty (VObj [])
                  healthy_getAllRentals_answered eq_refl eq_refl)).
Defined.

Lemma storage_only_loses_token_witness :
  forceLogoutFn expired_unregistered = Noop /\
  forceLogoutFn (snd (invoke Call_getAllRentals expired_unregistered)) = Noop.
Proof.
  split; [reflexivity|].
  exact (proj1 (storage_only_loses_token Call_getAllRentals expired_unregistered
                  eq_refl)).
Defined.

Lemma request_shape_witness :
  In rentals_request (new_requests Call_getAllRentals healthy) /\
  In (request_method rentals_request) ["GET"; "POST"; "PUT"; "DELETE"].
Proof.
  assert (Hin : In rentals_request (new_requests Call_getAllRentals healthy))
    by (left; reflexivity).
  split; [exact Hin|].
  exact (proj1 (proj2 (request_shape Call_getAllRentals healthy rentals_request Hin))).
Defined.

Lemma last_registration_wins_witness :
  (status unauthorized_unparsable = 401 \/ status unauthorized_unparsable = 403) /\
  logout_calls
    (snd (handleResponse unauthorized_unparsable
            (snd (register_all ([Handler 1; Handler 2] ++ [Handler 3]) logged_out))))
  = logout_calls logged_out ++ [Handler 3].
Proof.
  split; [left; reflexivity|].
  exact (proj2 (last_registration_wins [Handler 1; Handler 2] (Handler 3)
                  unauthorized_unparsable logged_out (or_introl eq_refl))).
Defined.

Lemma after_teardown_no_token_witness :
  (status unauthorized_unparsable = 401 \/ status unauthorized_unparsable = 403) /\
  forceLogoutFn expired_unregistered = Noop /\
  getCurrentUser (snd (handleResponse unauthorized_unparsable expired_unregistered)) =
  (Resolved (VObj [("user", VNull)]),
   snd (handleResponse unauthorized_unparsable expired_unregistered)).
Proof.
  split; [left; reflexivity|]. split; [reflexivity|].
  exact (proj1 (after_teardown_no_token unauthorized_unparsable expired_unregistered
                  (or_introl eq_refl) eq_refl)).
Defined.

Lemma mock_methods_leave_session_witness :
  is_mock Call_getTopProducts = true /\
  timeouts (snd (invoke Call_getTopProducts healthy)) = timeouts healthy ++ [400%Z].
Proof.
  split; [reflexivity|].
  destruct (mock_methods_leave_session Call_getTopProducts healthy eq_refl)
    as (_ & _ & _ & H).
  exact H.
Defined.

Lemma processPayment_ignores_input_witness :
  random_tape (env healthy) (draws healthy)
    = random_tape (env logged_out) (draws logged_out) /\
  fst (processPayment VNull healthy) = fst (processPayment credentials logged_out).
Proof.
  split; [reflexivity|].
  exact (processPayment_ignores_input VNull credentials healthy logged_out
           eq_refl eq_refl eq_refl).
Defined.

Lemma getRevenue_empty_witness :
  Date_getTime "yesterday" = None /\
  getRevenue "yesterday" "d2" healthy =
  (Resolved (VObj [("data", VArr [])]), extend [EvTimeout 500] healthy).
Proof.
  split; [reflexivity|].
  exact (getRevenue_empty "yesterday" "d2" healthy (or_introl eq_refl)).
Defined.

Lemma getRevenue_covers_period_witness :
  Date_getTime "d0" = Some 0%Z /\
  Date_getTime "d2.5" = Some (2 * ms_per_day + ms_per_day / 2)%Z /\
  exists data,
    fst (getRevenue "d0" "d2.5" healthy) = Resolved (VObj [("data", VArr data)]) /\
    1 <= length data.
Proof.
  split; [reflexivity|]. split; [reflexivity|].
  destruct (getRevenue_covers_period "d0" "d2.5" 0%Z
              (2 * ms_per_day + ms_per_day / 2)%Z healthy eq_refl eq_refl)
    as (data & Hrun & Hlen & _); [reflexivity | discriminate |].
  exists data. split; [exact Hrun | exact Hlen].
Defined.

Lemma getAllProducts_query_witness :
  (None ≫= skip = None /\ None ≫= take = None) /\
  new_requests (Call_getAllProducts None) healthy =
  [{| url := API_BASE_URL_of (env healthy) +:+ "/product?";
      method := None; headers := auth_headers healthy; body := None |}].
Proof.
  split; [split; reflexivity|].
  exact (proj2 (getAllProducts_query None healthy) (or_introl eq_refl)
           (or_introl eq_refl)).
Defined.

Lemma logged_in_reachable : reachable (dispatch (OnLogin customer) App_initial).
Proof. apply reachable_step; [apply reachable_initial | reflexivity]. Qed.

Lemma logout_shows_login_witness :
  reachable (dispatch (OnLogin customer) App_initial) /\
  isAuthenticated (dispatch (OnLogin customer) App_initial) = true /\
  render (dispatch OnLogout (dispatch (OnLogin customer) App_initial)) = LoginScreen.
Proof.
  split; [exact logged_in_reachable|]. split; [reflexivity|].
  exact (proj2 (logout_shows_login _ logged_in_reachable eq_refl)).
Defined.

Lemma authentication_gate_witness :
  offered (render App_initial) (OnLogin customer) = true /\
  render App_initial = LoginScreen.
Proof.
  split; [reflexivity|].
  destruct (authentication_gate App_initial (OnLogin customer) eq_refl)
    as (Hin & _).
  exact (proj1 (Hin eq_refl eq_refl)).
Defined.

Lemma submit_always_authenticates_witness :
  let st' :=
    deliver (drop (length (onLogin_calls logged_out))
               (onLogin_calls
                  (snd (handleSubmit {| email := "bob@rentflow.io"; password := "" |}
                          logged_out))))
            App_initial in
  userRole st' = customer /\ render st' = MainScreen CustomerPortal false.
Proof.
  cbv zeta.
  assert (Hrole :
    userRole
      (deliver (drop (length (onLogin_calls logged_out))
                  (onLogin_calls
                     (snd (handleSubmit {| email := "bob@rentflow.io"; password := "" |}
                             logged_out))))
               App_initial) = customer) by reflexivity.
  split; [exact Hrole|].
  destruct (submit_always_authenticates
              {| email := "bob@rentflow.io"; password := "" |} App_initial logged_out)
    as (_ & _ & _ & Hcust).
  exact (Hcust Hrole).
Defined.
